(** * Synthetic gravity data: [fatiando/potential/synthetic.py]

    A shallow embedding of [from_prisms] and [from_spheres] together with
    the small part of the Python and numpy run time they rely on.

    - Numbers are rationals ([Qc], canonical fractions with Leibniz
      equality).  Every floating-point operation of the program is the
      exact operation followed by a rounding [fl : rounding], a parameter
      of the embedding: [ideal] rounds nothing and gives exact arithmetic,
      [binary64] rounds to the nearest double.
    - Arrays carry numpy's dtype where the program depends on it: an array
      of floats is a [VArr], an array of integers a [VIntArr], and storing
      into an integer array truncates.
    - Python exceptions are values of [exn]; a function that can raise
      returns a [result].  [assert] raises [AssertionError] with its
      message.
    - The two entry points thread a state: the random generator for
      [from_prisms], the caller's grid dictionary for [from_spheres], which
      the function updates in place.
    - Dictionaries are finite maps from strings; arrays are lists; the
      source bodies are records with the keys the loops read.
    - The formula libraries [fatiando.grav.prism] and [fatiando.grav.sphere]
      are parameters: one total function for each field name. *)

From Stdlib Require Import QArith Qabs Qcanon Qround.
From stdpp Require Import base numbers gmap strings list fin_maps.

Local Open Scope Qc_scope.

(** ** Python run time *)

Inductive exn :=
  | AssertionError (msg : string)
  | ZeroDivisionError
  | ValueError
  | TypeError
  | IndexError
  | KeyError
  | UnboundLocalError.

Inductive result (A : Type) :=
  | Ok (a : A)
  | Raise (e : exn).
Arguments Ok {A} a.
Arguments Raise {A} e.

#[global] Instance result_ret : MRet result := λ A a, Ok a.
#[global] Instance result_bind : MBind result := λ A B f r,
  match r with
  | Ok a => f a
  | Raise e => Raise e
  end.

(** Computations over a mutable object of type [S]: the object is returned
    in its current state also when an exception is raised. *)
Definition M (S A : Type) : Type := S → result A * S.

#[global] Instance M_ret {S} : MRet (M S) := λ A a s, (Ok a, s).
#[global] Instance M_bind {S} : MBind (M S) := λ A B f m s,
  match m s with
  | (Ok a, s') => f a s'
  | (Raise e, s') => (Raise e, s')
  end.

Definition raise {S A} (e : exn) : M S A := λ s, (Raise e, s).
Definition lift {S A} (r : result A) : M S A := λ s, (r, s).
Definition get {S} : M S S := λ s, (Ok s, s).
Definition put {S} (s : S) : M S unit := λ _, (Ok tt, s).

(** [assert cond, msg] *)
Definition py_assert {S} (cond : bool) (msg : string) : M S unit :=
  if cond then mret tt else raise (AssertionError msg).

(** ** Arithmetic *)

(** What a floating-point operation does to its exact result. *)
Definition rounding : Type := Qc → Qc.

(** Exact arithmetic. *)
Definition ideal : rounding := λ q, q.

(** The nearest integer, a tie going to the even one. *)
Definition round_half_even (q : Q) : Z :=
  let f := Qfloor q in
  match (q - inject_Z f ?= 1 # 2)%Q with
  | Lt => f
  | Gt => (f + 1)%Z
  | Eq => if Z.even f then f else (f + 1)%Z
  end.

(** Python's [float]: the nearest number with a significand of 53 bits, a
    tie going to the even significand.  The exponent is not bounded: there
    is no overflow and no underflow. *)
Definition binary64 : rounding := λ q,
  if bool_decide (q = 0) then 0
  else
    let a : Q := Qabs q in
    let k := (Z.log2 (Qnum a) - Z.log2 (Zpos (Qden a)))%Z in
    let e := ((if Qle_bool (2 ^ k)%Q a then k else k - 1) - 52)%Z in
    let m := round_half_even (a / 2 ^ e)%Q in
    let r : Q := (inject_Z m * 2 ^ e)%Q in
    Q2Qc (if Qle_bool 0 q then r else (- r)%Q).

(** Conversion of a float to an integer: the fraction is dropped. *)
Definition truncate (q : Qc) : Z := (Qnum q ÷ Zpos (Qden q))%Z.

(** The values stored in the dictionaries of this module: sequences of
    floats (a numpy array of dtype [float64], or a list with a float in
    it), sequences of integers (an array of dtype [int64], or a list of
    integers), booleans and integers. *)
Inductive pyval :=
  | VArr (a : list Qc)
  | VIntArr (a : list Z)
  | VBool (b : bool)
  | VInt (n : Z).

(** An argument that is a number or a 1-D array ([height]). *)
Inductive scalar_or_array :=
  | Scalar (c : Qc)
  | Array (a : list Qc).

(** Unary minus. *)
Definition neg (h : scalar_or_array) : scalar_or_array :=
  match h with
  | Scalar c => Scalar (- c)
  | Array a => Array (Qcopp <$> a)
  end.

(** [a/b] for a float [a] and an integer [b]. *)
Definition py_truediv (fl : rounding) (a : Qc) (b : Z) : result Qc :=
  if bool_decide (b = 0%Z) then Raise ZeroDivisionError
  else Ok (fl (a / Qc_of_Z b)).

(** [len(v)] and iteration need a sequence; its items are numbers. *)
Definition as_array (v : pyval) : result (list Qc) :=
  match v with
  | VArr a => Ok a
  | VIntArr a => Ok (Qc_of_Z <$> a)
  | _ => Raise TypeError
  end.

(** [d[k]] *)
Definition getitem {V} (d : gmap string V) (k : string) : result V :=
  match d !! k with
  | Some v => Ok v
  | None => Raise KeyError
  end.

(** [a[i] += c]: the sum is put back into the array, which stores it as
    its dtype allows ([store]). *)
Definition iadd (store : Qc → Qc) (a : list Qc) (i : nat) (c : Qc)
    : result (list Qc) :=
  match a !! i with
  | Some v => Ok (<[i := store (v + c)]> a)
  | None => Raise IndexError
  end.

(** [for a in l: body], the loop state passed along. *)
Fixpoint for_ {A S} (l : list A) (body : A → S → result S) (s : S) : result S :=
  match l with
  | [] => Ok s
  | a :: l' => s' ← body a s; for_ l' body s'
  end.

Fixpoint enumerate_from {A} (n : nat) (l : list A) : list (nat * A) :=
  match l with
  | [] => []
  | a :: l' => (n, a) :: enumerate_from (S n) l'
  end.

Definition enumerate {A} (l : list A) : list (nat * A) := enumerate_from 0 l.

(** [zip(a, b, c)] stops at the shortest argument. *)
Definition zip3 {A} (a b c : list A) : list (A * A * A) :=
  zip (zip a b) c.

(** ** numpy *)

Module Numpy.

(** An array of [n] floats [c]: a negative size is an error.  (The
    largest size numpy can allocate is not modelled.) *)
Definition full (c : Qc) (n : Z) : result (list Qc) :=
  if bool_decide (n < 0)%Z then Raise ValueError
  else Ok (replicate (Z.to_nat n) c).

Definition ones (n : Z) : result (list Qc) := full 1 n.
Definition zeros (n : Z) : result (list Qc) := full 0 n.

(** The two dtypes of the arrays of this program. *)
Inductive dtype := float64 | int64.

(** An array: its dtype and its items, as numbers. *)
Record ndarray := { type : dtype; items : list Qc }.

(** [numpy.asarray(v)] for a sequence [v]. *)
Definition asarray (v : pyval) : result ndarray :=
  match v with
  | VArr a => Ok {| type := float64; items := a |}
  | VIntArr a => Ok {| type := int64; items := Qc_of_Z <$> a |}
  | _ => Raise TypeError
  end.

(** The dictionary value for an array. *)
Definition to_pyval (a : ndarray) : pyval :=
  match type a with
  | float64 => VArr (items a)
  | int64 => VIntArr (truncate <$> items a)
  end.

(** [numpy.zeros_like(a)]: zeros of the shape and of the dtype of [a]. *)
Definition zeros_like (a : ndarray) : ndarray :=
  {| type := type a; items := replicate (length (items a)) 0 |}.

(** What an array of dtype [t] keeps of a float it is given: the float
    itself, or its integer part. *)
Definition store (fl : rounding) (t : dtype) (v : Qc) : Qc :=
  match t with
  | float64 => fl v
  | int64 => Qc_of_Z (truncate (fl v))
  end.

(** [a * b] for a number or 1-D array [a] and a 1-D array [b]: shapes
    must agree unless one of them has a single element. *)
Definition multiply (fl : rounding) (a : scalar_or_array) (b : list Qc)
    : result (list Qc) :=
  match a with
  | Scalar c => Ok ((λ v, fl (c * v)) <$> b)
  | Array a =>
      if bool_decide (length a = length b)
      then Ok (zip_with (λ c v, fl (c * v)) a b)
      else match a, b with
           | [c], _ => Ok ((λ v, fl (c * v)) <$> b)
           | _, [d] => Ok ((λ v, fl (v * d)) <$> a)
           | _, _ => Raise ValueError
           end
  end.

(** [numpy.arange(start, stop, step)] for floats.  The length is
    [ceil((stop - start)/step)], computed in floating point; the
    division raises for a zero step; there are no values when the length
    is not positive.  The first value is [start], the second
    [start + step], and the [i]-th is [start + i*delta] for the
    difference [delta] of the first two. *)
Definition arange (fl : rounding) (start stop step : Qc) : result (list Qc) :=
  if bool_decide (step = 0) then Raise ZeroDivisionError
  else
    let quotient : Qc := fl (fl (stop - start) / step) in
    let len := Z.to_nat (Qceiling quotient) in
    let next := fl (start + step) in
    let delta := fl (next - start) in
    Ok ((λ i : nat,
           match i with
           | O => start
           | S O => next
           | _ => fl (start + fl (Qc_of_Z (Z.of_nat i) * delta))
           end) <$> seq 0 len).

Definition append (a : list Qc) (v : Qc) : list Qc := a ++ [v].

(** The generator: an endless supply of samples of the unit interval and
    the number of samples consumed so far. *)
Record RandomState := { samples : nat → Qc; consumed : nat }.

(** [numpy.random.uniform(low, high, size)]:
    [low + (high - low) * u] for the next [size] samples [u]. *)
Definition random_uniform (fl : rounding) (low high : Qc) (size : Z)
    : M RandomState (list Qc) :=
  λ g,
    if bool_decide (size < 0)%Z then (Raise ValueError, g)
    else
      let n := Z.to_nat size in
      (Ok ((λ k : nat,
              fl (low + fl (fl (high - low) * samples g (consumed g + k))))
             <$> seq 0 n),
       {| samples := samples g; consumed := consumed g + n |}).

End Numpy.

(** ** The formula libraries [fatiando.grav.prism] and [fatiando.grav.sphere]

    They are external to this module: pure functions from the body's
    parameters and the observation point to a number. *)

(** [f(value, x1, x2, y1, y2, z1, z2, x, y, z)] *)
Definition prism_formula : Type :=
  Qc → Qc → Qc → Qc → Qc → Qc → Qc → Qc → Qc → Qc → Qc.

(** [f(density, radius, xc, yc, zc, x, y, z)] *)
Definition sphere_formula : Type :=
  Qc → Qc → Qc → Qc → Qc → Qc → Qc → Qc → Qc.

Record grav_prism := {
  prism_gz : prism_formula;
  prism_gxx : prism_formula;
  prism_gxy : prism_formula;
  prism_gxz : prism_formula;
  prism_gyy : prism_formula;
  prism_gyz : prism_formula;
  prism_gzz : prism_formula;
}.

Record grav_sphere := {
  sphere_gz : sphere_formula;
  sphere_gxx : sphere_formula;
  sphere_gyy : sphere_formula;
  sphere_gzz : sphere_formula;
}.

(** ** Source bodies *)

Record prism := {
  p_value : Qc;
  p_x1 : Qc; p_x2 : Qc;
  p_y1 : Qc; p_y2 : Qc;
  p_z1 : Qc; p_z2 : Qc;
}.

Record sphere := {
  s_density : Qc;
  s_radius : Qc;
  s_xc : Qc; s_yc : Qc; s_zc : Qc;
}.

(** ** [synthetic.py] *)

Section synthetic.
Context (fl : rounding) (P : grav_prism) (Sp : grav_sphere).

(** The [fields] dictionary of [from_prisms]. *)
Definition prism_fields : gmap string prism_formula :=
  list_to_map
    [("gz", prism_gz P); ("gxx", prism_gxx P); ("gxy", prism_gxy P);
     ("gxz", prism_gxz P); ("gyy", prism_gyy P); ("gyz", prism_gyz P);
     ("gzz", prism_gzz P)].

(** The [fields] dictionary of [from_spheres]. *)
Definition sphere_fields : gmap string sphere_formula :=
  list_to_map
    [("gz", sphere_gz Sp); ("gxx", sphere_gxx Sp); ("gyy", sphere_gyy Sp);
     ("gzz", sphere_gzz Sp)].

Definition invalid_grid_type (grid : string) : string :=
  "Invalid grid type '" +:+ grid +:+ "'".

Definition invalid_gravity_field (field : string) : string :=
  "Invalid gravity field '" +:+ field +:+ "'".

Definition missing_key (k : string) : string :=
  "Invalid grid. Missing '" +:+ k +:+ "' key.".

(** The two nested loops that fill [xs] and [ys]. *)
Definition regular_points (x_range y_range : list Qc) : list Qc * list Qc :=
  foldl (λ acc y,
           foldl (λ acc x, (acc.1 ++ [x], acc.2 ++ [y])) acc x_range)
        ([], []) y_range.

(** The body of [if grid == 'regular']: the coordinates and the
    dictionary with its three new entries.  ([dy] is not used after the
    range is built, so its value [0] for [ny <= 1] is left out.) *)
Definition regular_grid (x1 x2 y1 y2 : Qc) (nx ny : Z)
    (data : gmap string pyval)
    : result (list Qc * list Qc * gmap string pyval) :=
  dx ← py_truediv fl (fl (x2 - x1)) (nx - 1);
  x_range ← Numpy.arange fl x1 x2 dx;
  y_range ←
    (if bool_decide (1 < ny)%Z then
       dy ← py_truediv fl (fl (y2 - y1)) (ny - 1);
       Numpy.arange fl y1 y2 dy
     else Ok [y1]);
  let x_range :=
    if bool_decide (Z.of_nat (length x_range) < nx)%Z
    then Numpy.append x_range x2 else x_range in
  let y_range :=
    if bool_decide (Z.of_nat (length y_range) < ny)%Z
    then Numpy.append y_range y2 else y_range in
  let '(xs, ys) := regular_points x_range y_range in
  let data := <["grid" := VBool true]> data in
  let data := <["nx" := VInt nx]> data in
  let data := <["ny" := VInt ny]> data in
  Ok (xs, ys, data).

(** The body of [if grid == 'random']. *)
Definition random_grid (x1 x2 y1 y2 : Qc) (nx ny : Z)
    (data : gmap string pyval)
    : M Numpy.RandomState (list Qc * list Qc * gmap string pyval) :=
  xs ← Numpy.random_uniform fl x1 x2 (nx * ny);
  ys ← (if bool_decide (1 < ny)%Z
        then Numpy.random_uniform fl y1 y2 (nx * ny)
        else mret [y1]);
  let data := <["grid" := VBool false]> data in
  mret (xs, ys, data).

(** [from_prisms(prisms, x1, x2, y1, y2, nx, ny, height, field, grid)].
    [value] is the array stored under ['value']: the loop updates it in
    place, so the returned dictionary holds the accumulated array.  It
    comes from [numpy.zeros] and is an array of floats. *)
Definition from_prisms (prisms : list prism) (x1 x2 y1 y2 : Qc) (nx ny : Z)
    (height : scalar_or_array) (field grid : string)
    : M Numpy.RandomState (gmap string pyval) :=
  py_assert (bool_decide (grid ∈ ["regular"; "random"]))
            (invalid_grid_type grid);;
  let fields := prism_fields in
  py_assert (bool_decide (is_Some (fields !! field)))
            (invalid_gravity_field field);;
  ones ← lift (Numpy.ones (nx * ny));
  z ← lift (Numpy.multiply fl (neg height) ones);
  value ← lift (Numpy.zeros (nx * ny));
  error ← lift (Numpy.zeros (nx * ny));
  let data : gmap string pyval :=
    <["error" := VArr error]> (<["value" := VArr value]> {["z" := VArr z]}) in
  st ← (if bool_decide (grid = "regular")
        then r ← lift (regular_grid x1 x2 y1 y2 nx ny data); mret (Some r)
        else mret None);
  st ← (if bool_decide (grid = "random")
        then r ← random_grid x1 x2 y1 y2 nx ny
                   (match st with Some r => r.2 | None => data end);
             mret (Some r)
        else mret st);
  match st with
  | None => raise UnboundLocalError
  | Some (xs, ys, data) =>
      let data := <["x" := VArr xs]> data in
      let data := <["y" := VArr ys]> data in
      function ← lift (getitem fields field);
      value ← lift
        (for_ (enumerate (zip3 xs ys z)) (λ '(i, (x, y, z)) value,
           for_ prisms (λ prism value,
             iadd fl value i
               (function (p_value prism)
                         (p_x1 prism) (p_x2 prism)
                         (p_y1 prism) (p_y2 prism)
                         (p_z1 prism) (p_z2 prism)
                         x y z)) value) value);
      mret (<["value" := VArr value]> data)
  end.

(** [from_spheres(spheres, grid, field)]: the caller's [grid] is the
    state; the function returns [None].  [data] has the dtype of
    [grid['x']]. *)
Definition from_spheres (spheres : list sphere) (grid : gmap string pyval)
    (field : string) : result unit * gmap string pyval :=
  (let fields := sphere_fields in
   py_assert (bool_decide (is_Some (fields !! field)))
             (invalid_gravity_field field);;
   g ← get;
   py_assert (bool_decide (is_Some (g !! "x"))) (missing_key "x");;
   py_assert (bool_decide (is_Some (g !! "y"))) (missing_key "y");;
   py_assert (bool_decide (is_Some (g !! "z"))) (missing_key "z");;
   gx ← lift (v ← getitem g "x"; Numpy.asarray v);
   function ← lift (getitem fields field);
   let data := Numpy.zeros_like gx in
   gy ← lift (v ← getitem g "y"; as_array v);
   gz ← lift (v ← getitem g "z"; as_array v);
   data ← lift
     (for_ (enumerate (zip3 (Numpy.items gx) gy gz)) (λ '(i, (x, y, z)) data,
        for_ spheres (λ sphere data,
          iadd (Numpy.store fl (Numpy.type gx)) data i
            (function (s_density sphere) (s_radius sphere)
                      (s_xc sphere) (s_yc sphere) (s_zc sphere)
                      x y z)) data) (Numpy.items data));
   g ← get;
   put (<["value" := Numpy.to_pyval
                       {| Numpy.type := Numpy.type gx; Numpy.items := data |}]>
          g)) grid.

End synthetic.

(** ** Auxiliary definitions for the statements *)

(** The names in the two [fields] dictionaries. *)
Definition prism_field_names : list string :=
  ["gz"; "gxx"; "gxy"; "gxz"; "gyy"; "gyz"; "gzz"].

Definition sphere_field_names : list string := ["gz"; "gxx"; "gyy"; "gzz"].

(** Exact sum of a list. *)
Definition Qcsum (l : list Qc) : Qc := foldr Qcplus 0 l.

(** What the double loop leaves in the array, when it starts from zeros:
    the sum of the contributions at each point, and zero past the last
    point. *)
Definition accumulated {B T} (c : B → T → Qc) (bodies : list B) (pts : list T)
    (n : nat) : list Qc :=
  ((λ pt, Qcsum ((λ b, c b pt) <$> bodies)) <$> pts)
    ++ replicate (n - length pts)%nat 0.

(** The same loop on an array that stores with [store]: at each point
    the contributions are added one after the other, and each sum is
    stored before the next is added. *)
Definition running (store : Qc → Qc) (v : Qc) (cs : list Qc) : Qc :=
  foldl (λ acc c, store (acc + c)) v cs.

Definition accumulated_with {B T} (store : Qc → Qc) (c : B → T → Qc)
    (bodies : list B) (pts : list T) (n : nat) : list Qc :=
  ((λ pt, running store 0 ((λ b, c b pt) <$> bodies)) <$> pts)
    ++ replicate (n - length pts)%nat 0.

(** The [n] evenly spaced values from [a] to [b]. *)
Definition axis (a b : Qc) (n : Z) : list Qc :=
  (λ i : nat, a + Qc_of_Z (Z.of_nat i) * ((b - a) / Qc_of_Z (n - 1)))
    <$> seq 0 (Z.to_nat n).

(** *** The ranges in floating point *)

(** The step along an axis of [n] points from [a] to [b]. *)
Definition step (fl : rounding) (a b : Qc) (n : Z) : Qc :=
  fl (fl (b - a) / Qc_of_Z (n - 1)).

(** The number of values that [arange] computes for the step [d]. *)
Definition arange_length (fl : rounding) (start stop d : Qc) : Z :=
  let quotient : Qc := fl (fl (stop - start) / d) in
  Qceiling quotient.

(** The [i]-th value of [arange]. *)
Definition arange_item (fl : rounding) (start d : Qc) (i : nat) : Qc :=
  match i with
  | O => start
  | S O => fl (start + d)
  | _ => fl (start + fl (Qc_of_Z (Z.of_nat i) * fl (fl (start + d) - start)))
  end.

(** The range that the regular branch builds for [n] points from [a] to
    [b]: the values of [arange], and [b] after them when they are fewer
    than [n]. *)
Definition axis_range (fl : rounding) (a b : Qc) (n : Z) : list Qc :=
  let d := step fl a b n in
  let r := arange_item fl a d <$> seq 0 (Z.to_nat (arange_length fl a b d)) in
  if bool_decide (Z.of_nat (length r) < n)%Z then r ++ [b] else r.

(** The y-values of the regular grid: a range, or the single row [y1] when
    [ny <= 1]. *)
Definition rows_range (fl : rounding) (y1 y2 : Qc) (ny : Z) : list Qc :=
  if bool_decide (1 < ny)%Z then axis_range fl y1 y2 ny else [y1].


(** The first of 'x', 'y' and 'z' that a grid lacks. *)
Definition first_missing (grid : gmap string pyval) : string :=
  if bool_decide (grid !! "x" = None) then "x"
  else if bool_decide (grid !! "y" = None) then "y"
  else "z".

(** The dictionary [from_prisms] starts from. *)
Definition initial_data (z : list Qc) (n : nat) : gmap string pyval :=
  <["error" := VArr (replicate n 0)]>
    (<["value" := VArr (replicate n 0)]> {["z" := VArr z]}).

Definition regular_data (z : list Qc) (nx ny : Z) : gmap string pyval :=
  <["ny" := VInt ny]>
    (<["nx" := VInt nx]>
       (<["grid" := VBool true]> (initial_data z (Z.to_nat (nx * ny))))).

Definition random_data (z : list Qc) (n : nat) : gmap string pyval :=
  <["grid" := VBool false]> (initial_data z n).

(** [height] is a number or an array with one entry for each of the [n]
    points. *)
Definition height_fits (height : scalar_or_array) (n : Z) : Prop :=
  match height with
  | Scalar _ => True
  | Array hs => Z.of_nat (length hs) = n
  end.

(** The contribution of one body at one point. *)
Definition prism_effect (function : prism_formula) (p : prism)
    (pt : Qc * Qc * Qc) : Qc :=
  let '(x, y, z) := pt in
  function (p_value p) (p_x1 p) (p_x2 p) (p_y1 p) (p_y2 p) (p_z1 p) (p_z2 p)
           x y z.

Definition sphere_effect (function : sphere_formula) (s : sphere)
    (pt : Qc * Qc * Qc) : Qc :=
  let '(x, y, z) := pt in
  function (s_density s) (s_radius s) (s_xc s) (s_yc s) (s_zc s) x y z.

(** The double loop of [from_prisms] and of [from_spheres], on an array
    that stores with [store]. *)
Definition prisms_loop (store : Qc → Qc) (function : prism_formula)
    (prisms : list prism) (xs ys z value : list Qc) : result (list Qc) :=
  for_ (enumerate (zip3 xs ys z))
       (λ '(i, pt) a,
          for_ prisms (λ b a, iadd store a i (prism_effect function b pt)) a)
       value.

Definition spheres_loop (store : Qc → Qc) (function : sphere_formula)
    (spheres : list sphere) (xs ys zs data : list Qc) : result (list Qc) :=
  for_ (enumerate (zip3 xs ys zs))
       (λ '(i, pt) a,
          for_ spheres (λ b a, iadd store a i (sphere_effect function b pt)) a)
       data.

(** The array [from_spheres] stores under ['value']: of the dtype of
    [grid['x']], with the contributions of the spheres accumulated at each
    point. *)
Definition sphere_value (fl : rounding) (function : sphere_formula)
    (spheres : list sphere) (gx : Numpy.ndarray) (ys zs : list Qc) : pyval :=
  Numpy.to_pyval
    {| Numpy.type := Numpy.type gx;
       Numpy.items :=
         accumulated_with (Numpy.store fl (Numpy.type gx))
           (sphere_effect function) spheres
           (zip3 (Numpy.items gx) ys zs) (length (Numpy.items gx)) |}.

(** [n] draws between [low] and [high], and the generator after them. *)
Definition draws (fl : rounding) (low high : Qc) (g : Numpy.RandomState)
    (n : nat) : list Qc :=
  (λ k : nat,
     fl (low + fl (fl (high - low) * Numpy.samples g (Numpy.consumed g + k))))
    <$> seq 0 n.

Definition advance (g : Numpy.RandomState) (n : nat) : Numpy.RandomState :=
  {| Numpy.samples := Numpy.samples g; Numpy.consumed := Numpy.consumed g + n |}.

(** The shapes numpy accepts for [-height * numpy.ones(n)]: a number, an
    array of [n] entries, an array of one entry, or any array when
    [n = 1]. *)
Definition height_broadcasts (height : scalar_or_array) (n : nat) : Prop :=
  match height with
  | Scalar _ => True
  | Array hs => length hs = n ∨ length hs = 1%nat ∨ n = 1%nat
  end.

(** The y-values of the regular grid: [ny] evenly spaced rows, or the single
    row [y1] when [ny <= 1]. *)
Definition rows (y1 y2 : Qc) (ny : Z) : list Qc :=
  if bool_decide (1 < ny)%Z then axis y1 y2 ny else [y1].

(** The keys of the dictionary [from_prisms] returns. *)
Definition data_keys (grid : string) : gset string :=
  if bool_decide (grid = "regular")
  then list_to_set ["x"; "y"; "z"; "value"; "error"; "grid"; "nx"; "ny"]
  else list_to_set ["x"; "y"; "z"; "value"; "error"; "grid"].

(** Entry-wise sum of two arrays. *)
Definition add_arrays (a b : list Qc) : list Qc := zip_with Qcplus a b.

(** The dictionary a regular-grid call returns, from the array [z] it has
    built. *)
Definition regular_result (function : prism_formula) (prisms : list prism)
    (x1 x2 y1 y2 : Qc) (nx ny : Z) (z : list Qc) : gmap string pyval :=
  let xs := rows y1 y2 ny ≫= (λ _, axis x1 x2 nx) in
  let ys := rows y1 y2 ny ≫= (λ y, replicate (Z.to_nat nx) y) in
  <["value" := VArr (accumulated (prism_effect function) prisms
                       (zip3 xs ys z) (Z.to_nat (nx * ny)))]>
    (<["y" := VArr ys]> (<["x" := VArr xs]> (regular_data z nx ny))).

(** The coordinates a random call draws, and the generator after them. *)
Definition random_xs (x1 x2 : Qc) (n : nat) (g : Numpy.RandomState) : list Qc :=
  draws ideal x1 x2 g n.

Definition random_ys (y1 y2 : Qc) (ny : Z) (n : nat) (g : Numpy.RandomState)
    : list Qc :=
  if bool_decide (1 < ny)%Z then draws ideal y1 y2 (advance g n) n else [y1].

Definition random_after (ny : Z) (n : nat) (g : Numpy.RandomState)
    : Numpy.RandomState :=
  if bool_decide (1 < ny)%Z then advance (advance g n) n else advance g n.

(** The dictionary a random call returns. *)
Definition random_result (function : prism_formula) (prisms : list prism)
    (x1 x2 y1 y2 : Qc) (nx ny : Z) (z : list Qc) (g : Numpy.RandomState)
    : gmap string pyval :=
  let n := Z.to_nat (nx * ny) in
  let xs := random_xs x1 x2 n g in
  let ys := random_ys y1 y2 ny n g in
  <["value" := VArr (accumulated (prism_effect function) prisms
                       (zip3 xs ys z) n)]>
    (<["y" := VArr ys]> (<["x" := VArr xs]> (random_data z n))).

(** ** Instances for the examples: a formula library and a generator *)

Module Demo.

(** Mass of the prism over the vertical distance to its top. *)
Definition prism_f : prism_formula :=
  λ value x1 x2 y1 y2 z1 z2 x y z,
    value * (x2 - x1) * (y2 - y1) * (z2 - z1) * (z1 - z).

Definition sphere_f : sphere_formula :=
  λ density radius xc yc zc x y z, density * radius * (zc - z).

Definition P : grav_prism :=
  {| prism_gz := prism_f; prism_gxx := prism_f; prism_gxy := prism_f;
     prism_gxz := prism_f; prism_gyy := prism_f; prism_gyz := prism_f;
     prism_gzz := prism_f |}.

Definition Sp : grav_sphere :=
  {| sphere_gz := sphere_f; sphere_gxx := sphere_f; sphere_gyy := sphere_f;
     sphere_gzz := sphere_f |}.

(** The samples 1/2, 1/3, 1/4, ... *)
Definition g : Numpy.RandomState :=
  {| Numpy.samples := λ k, 1 / Qc_of_Z (Z.of_nat (k + 2)); Numpy.consumed := 0 |}.

Definition cube : prism :=
  {| p_value := 1; p_x1 := 0; p_x2 := 1; p_y1 := 0; p_y2 := 1;
     p_z1 := 1; p_z2 := 2 |}.

Definition ball : sphere :=
  {| s_density := 1; s_radius := 1; s_xc := 0; s_yc := 0; s_zc := 2 |}.

Definition ten : Qc := Qc_of_Z 10.

(** A grid of two points at height zero, its coordinates floats. *)
Definition grid2 : gmap string pyval :=
  <["z" := VArr [0; 0]]> (<["y" := VArr [0; 0]]> {["x" := VArr [0; ten]]}).

(** The same grid with integer coordinates. *)
Definition igrid : gmap string pyval :=
  <["z" := VIntArr [0; 0]%Z]>
    (<["y" := VIntArr [0; 0]%Z]> {["x" := VIntArr [0; 10]%Z]}).

(** Spheres that contribute 1/2, 3/2 and -3/5 at height zero. *)
Definition half : sphere :=
  {| s_density := 1 / Qc_of_Z 2; s_radius := 1; s_xc := 0; s_yc := 0;
     s_zc := 1 |}.

Definition up : sphere :=
  {| s_density := Qc_of_Z 3 / Qc_of_Z 2; s_radius := 1; s_xc := 0; s_yc := 0;
     s_zc := 1 |}.

Definition down : sphere :=
  {| s_density := Qc_of_Z (-3) / Qc_of_Z 5; s_radius := 1; s_xc := 0;
     s_yc := 0; s_zc := 1 |}.

End Demo.

(** * Properties *)

(** ** The monad *)

Lemma M_bind_lift_Ok {S A B} (a : A) (k : A → M S B) (s : S) :
  (lift (Ok a) ≫= k) s = k a s.
Proof. reflexivity. Qed.

Lemma M_bind_lift_Raise {S A B} (e : exn) (k : A → M S B) (s : S) :
  (lift (Raise e) ≫= k) s = (Raise e, s).
Proof. reflexivity. Qed.

Lemma py_assert_true {S B} (msg : string) (k : unit → M S B) (s : S) :
  (py_assert true msg ≫= k) s = k tt s.
Proof. reflexivity. Qed.

Lemma py_assert_false {S B} (msg : string) (k : unit → M S B) (s : S) :
  (py_assert false msg ≫= k) s = (Raise (AssertionError msg), s).
Proof. reflexivity. Qed.

Ltac mstep :=
  first [ rewrite py_assert_true | rewrite py_assert_false
        | rewrite M_bind_lift_Ok | rewrite M_bind_lift_Raise ];
  cbn beta.

(** Runs the state monad as far as the outcomes of its steps are known. *)
Ltac mrun :=
  cbv beta iota zeta delta [mbind mret M_bind M_ret lift raise py_assert get put].

Lemma result_bind_Ok {A B} (a : A) (f : A → result B) : Ok a ≫= f = f a.
Proof. reflexivity. Qed.

Lemma result_bind_Raise {A B} (e : exn) (f : A → result B) :
  Raise e ≫= f = Raise e.
Proof. reflexivity. Qed.

(** ** Exact arithmetic *)

Lemma ideal_eq (q : Qc) : ideal q = q.
Proof. reflexivity. Qed.

(** ** Sums and the accumulation loops *)


Lemma for_ext {A S} (l : list A) (f g : A → S → result S) (s : S) :
  (∀ a s, f a s = g a s) → for_ l f s = for_ l g s.
Proof.
  intros Hfg. revert s. induction l as [|a l IH]; intros s; simpl; [done|].
  rewrite Hfg. destruct (g a s); simpl; auto.
Qed.

Lemma for_nop {A S} (l : list A) (s : S) : for_ l (λ _ s, Ok s) s = Ok s.
Proof. induction l; simpl; auto. Qed.

Lemma iadd_Some (a : list Qc) i v c :
  a !! i = Some v → iadd ideal a i c = Ok (<[i := v + c]> a).
Proof. unfold iadd. by intros ->. Qed.


Lemma for_cons {A S} (a : A) (l : list A) (body : A → S → result S) (s : S) :
  for_ (a :: l) body s = body a s ≫= for_ l body.
Proof. reflexivity. Qed.

Lemma Qcsum_cons (c : Qc) (l : list Qc) : Qcsum (c :: l) = c + Qcsum l.
Proof. reflexivity. Qed.

(** The inner loop adds the sum of the contributions to entry [i]. *)
Lemma for_iadd_Some {B} (bodies : list B) (c : B → Qc) (a : list Qc) i v :
  a !! i = Some v →
  for_ bodies (λ b a, iadd ideal a i (c b)) a = Ok (<[i := v + Qcsum (c <$> bodies)]> a).
Proof.
  revert a v. induction bodies as [|b bodies IH]; intros a v Hi.
  - simpl. rewrite Qcplus_0_r, list_insert_id; done.
  - rewrite for_cons, (iadd_Some _ _ v) by done.
    change (for_ bodies (λ b a, iadd ideal a i (c b)) (<[i:=v + c b]> a)
            = Ok (<[i:=v + Qcsum (c <$> b :: bodies)]> a)).
    rewrite (IH _ (v + c b)).
    + rewrite list_insert_insert_eq, fmap_cons, Qcsum_cons. do 2 f_equal. ring.
    + apply list_lookup_insert_eq. by eapply lookup_lt_Some.
Qed.




Lemma for_enumerate_iadd {B T} (c : B → T → Qc) (bodies : list B)
    (pts : list T) (k : nat) (a : list Qc) :
  (k + length pts ≤ length a)%nat →
  for_ (enumerate_from k pts)
       (λ '(i, pt) a, for_ bodies (λ b a, iadd ideal a i (c b pt)) a) a
  = Ok (take k a
        ++ zip_with (λ v pt, v + Qcsum ((λ b, c b pt) <$> bodies))
                    (take (length pts) (drop k a)) pts
        ++ drop (k + length pts)%nat a).
Proof.
  revert k a. induction pts as [|pt pts IH]; intros k a Hk.
  - simpl. rewrite Nat.add_0_r. by rewrite take_drop.
  - simpl in Hk. unfold enumerate_from; fold (@enumerate_from T).
    destruct (lookup_lt_is_Some_2 a k) as [v Hv]; [clear -Hk; lia|].
    rewrite for_cons. cbn beta iota.
    rewrite (for_iadd_Some _ _ _ _ v) by done.
    set (a1 := <[k:=_]> a).
    rewrite result_bind_Ok.
    assert (length a1 = length a) as Hlen by apply length_insert.
    rewrite IH by (rewrite Hlen; clear -Hk; lia).
    f_equal.
    rewrite (take_S_r a1 k (v + Qcsum ((λ b, c b pt) <$> bodies)))
      by (apply list_lookup_insert_eq; by eapply lookup_lt_Some).
    unfold a1. rewrite take_insert_ge by done.
    rewrite !drop_insert_lt by (clear; lia).
    rewrite (drop_S a v k Hv). cbn [take zip_with].
    rewrite <- (assoc_L (++)). cbn [app].
    by rewrite Nat.add_succ_comm.
Qed.

Lemma zip_with_replicate_0 {T} (f : T → Qc) (pts : list T) :
  zip_with (λ v pt, v + f pt) (replicate (length pts) 0) pts = f <$> pts.
Proof.
  induction pts as [|pt pts IH]; simpl; [done|].
  by rewrite IH, Qcplus_0_l.
Qed.

Lemma for_enumerate_zeros {B T} (c : B → T → Qc) (bodies : list B)
    (pts : list T) (n : nat) :
  (length pts ≤ n)%nat →
  for_ (enumerate pts)
       (λ '(i, pt) a, for_ bodies (λ b a, iadd ideal a i (c b pt)) a)
       (replicate n 0)
  = Ok (accumulated c bodies pts n).
Proof.
  intros Hn. unfold enumerate.
  rewrite for_enumerate_iadd by (rewrite length_replicate; clear -Hn; lia).
  unfold accumulated. f_equal.
  rewrite take_0, drop_0, take_replicate, drop_replicate. cbn [app].
  rewrite Nat.min_l by done.
  by rewrite (zip_with_replicate_0 (λ pt, Qcsum ((λ b, c b pt) <$> bodies))).
Qed.

Lemma accumulated_length {B T} (c : B → T → Qc) bodies (pts : list T) n :
  (length pts ≤ n)%nat → length (accumulated c bodies pts n) = n.
Proof.
  intros Hn. unfold accumulated.
  rewrite length_app, length_fmap, length_replicate. clear -Hn; lia.
Qed.


(** With no bodies the double loop leaves the array as it is, whatever the
    points. *)
Lemma for_enumerate_no_bodies {B T} (c : nat → B → T → Qc) (l : list (nat * T))
    (a : list Qc) :
  for_ l (λ '(i, pt) a, for_ [] (λ b a, iadd ideal a i (c i b pt)) a) a = Ok a.
Proof.
  rewrite (for_ext _ _ (λ _ s, Ok s)) by (by intros [??] ?).
  apply for_nop.
Qed.

(** *** The loops on an array of any dtype *)



Lemma iadd_store_Some (store : Qc → Qc) (a : list Qc) i v c :
  a !! i = Some v → iadd store a i c = Ok (<[i := store (v + c)]> a).
Proof. unfold iadd. by intros ->. Qed.


Lemma for_iadd_store {B} (store : Qc → Qc) (bodies : list B) (c : B → Qc)
    (a : list Qc) i v :
  a !! i = Some v →
  for_ bodies (λ b a, iadd store a i (c b)) a
  = Ok (<[i := running store v (c <$> bodies)]> a).
Proof.
  revert a v. induction bodies as [|b bodies IH]; intros a v Hi.
  - simpl. by rewrite list_insert_id.
  - rewrite for_cons, (iadd_store_Some _ _ _ v) by done.
    change (for_ bodies (λ b a, iadd store a i (c b)) (<[i:=store (v + c b)]> a)
            = Ok (<[i:=running store v (c <$> b :: bodies)]> a)).
    rewrite (IH _ (store (v + c b))).
    + by rewrite list_insert_insert_eq.
    + apply list_lookup_insert_eq. by eapply lookup_lt_Some.
Qed.

Lemma for_enumerate_store {B T} (store : Qc → Qc) (c : B → T → Qc)
    (bodies : list B) (pts : list T) (k : nat) (a : list Qc) :
  (k + length pts ≤ length a)%nat →
  for_ (enumerate_from k pts)
       (λ '(i, pt) a, for_ bodies (λ b a, iadd store a i (c b pt)) a) a
  = Ok (take k a
        ++ zip_with (λ v pt, running store v ((λ b, c b pt) <$> bodies))
                    (take (length pts) (drop k a)) pts
        ++ drop (k + length pts)%nat a).
Proof.
  revert k a. induction pts as [|pt pts IH]; intros k a Hk.
  - simpl. rewrite Nat.add_0_r. by rewrite take_drop.
  - simpl in Hk. unfold enumerate_from; fold (@enumerate_from T).
    destruct (lookup_lt_is_Some_2 a k) as [v Hv]; [clear -Hk; lia|].
    rewrite for_cons. cbn beta iota.
    rewrite (for_iadd_store _ _ _ _ _ v) by done.
    set (a1 := <[k:=_]> a).
    rewrite result_bind_Ok.
    assert (length a1 = length a) as Hlen by apply length_insert.
    rewrite IH by (rewrite Hlen; clear -Hk; lia).
    f_equal.
    rewrite (take_S_r a1 k (running store v ((λ b, c b pt) <$> bodies)))
      by (apply list_lookup_insert_eq; by eapply lookup_lt_Some).
    unfold a1. rewrite take_insert_ge by done.
    rewrite !drop_insert_lt by (clear; lia).
    rewrite (drop_S a v k Hv). cbn [take zip_with].
    rewrite <- (assoc_L (++)). cbn [app].
    by rewrite Nat.add_succ_comm.
Qed.

Lemma zip_with_replicate_const {T} (f : Qc → T → Qc) (pts : list T) (v : Qc) :
  zip_with f (replicate (length pts) v) pts = (λ pt, f v pt) <$> pts.
Proof. induction pts as [|pt pts IH]; simpl; [done|]. by rewrite IH. Qed.

(** From zeros, the loop leaves [accumulated_with]: no index is out of
    range as long as there are no more points than entries. *)
Lemma for_enumerate_zeros_store {B T} (store : Qc → Qc) (c : B → T → Qc)
    (bodies : list B) (pts : list T) (n : nat) :
  (length pts ≤ n)%nat →
  for_ (enumerate pts)
       (λ '(i, pt) a, for_ bodies (λ b a, iadd store a i (c b pt)) a)
       (replicate n 0)
  = Ok (accumulated_with store c bodies pts n).
Proof.
  intros Hn. unfold enumerate.
  rewrite for_enumerate_store by (rewrite length_replicate; clear -Hn; lia).
  unfold accumulated_with. f_equal.
  rewrite take_0, drop_0, take_replicate, drop_replicate. cbn [app].
  rewrite Nat.min_l by done.
  by rewrite (zip_with_replicate_const
                (λ v pt, running store v ((λ b, c b pt) <$> bodies))).
Qed.




Lemma accumulated_with_nil {B T} (store : Qc → Qc) (c : B → T → Qc)
    (pts : list T) n :
  (length pts ≤ n)%nat → accumulated_with store c [] pts n = replicate n 0.
Proof.
  intros Hn. unfold accumulated_with.
  replace n with (length pts + (n - length pts))%nat at 2 by (clear -Hn; lia).
  rewrite replicate_add. f_equal.
  clear Hn. induction pts; simpl; [done|]. by f_equal.
Qed.


Lemma zip3_length_le {A} (a b c : list A) :
  (length (zip3 a b c) ≤ length a)%nat ∧ (length (zip3 a b c) ≤ length c)%nat.
Proof.
  unfold zip3. rewrite !length_zip_with. lia.
Qed.

Lemma zip3_lookup_None {A} (a b c : list A) (i : nat) :
  a !! i = None ∨ b !! i = None ∨ c !! i = None →
  (length (zip3 a b c) ≤ i)%nat.
Proof.
  unfold zip3. rewrite !length_zip_with.
  intros [H|[H|H]]; apply lookup_ge_None in H; lia.
Qed.

(** ** The regular lattice *)

Lemma regular_points_inner (x_range : list Qc) (y : Qc) (acc : list Qc * list Qc) :
  foldl (λ acc x, (acc.1 ++ [x], acc.2 ++ [y])) acc x_range
  = (acc.1 ++ x_range, acc.2 ++ replicate (length x_range) y).
Proof.
  revert acc. induction x_range as [|x x_range IH]; intros [xs ys]; simpl.
  - by rewrite !app_nil_r.
  - rewrite IH. simpl. by rewrite <- !(assoc_L (++)).
Qed.

(** Row-major order: the whole of [x_range] once for each [y]. *)
Lemma regular_points_eq (x_range y_range : list Qc) :
  regular_points x_range y_range
  = (y_range ≫= (λ _, x_range),
     y_range ≫= (λ y, replicate (length x_range) y)).
Proof.
  unfold regular_points.
  enough (∀ acc,
    foldl (λ acc y, foldl (λ acc x, (acc.1 ++ [x], acc.2 ++ [y])) acc x_range)
          acc y_range
    = (acc.1 ++ (y_range ≫= (λ _, x_range)),
       acc.2 ++ (y_range ≫= (λ y, replicate (length x_range) y)))) as H
    by (by rewrite H).
  induction y_range as [|y y_range IH]; intros [xs ys]; simpl.
  - by rewrite !app_nil_r.
  - rewrite regular_points_inner, IH. simpl. by rewrite <- !(assoc_L (++)).
Qed.

Lemma bind_const_length {A B} (l : list A) (k : list B) :
  length (l ≫= (λ _, k)) = (length l * length k)%nat.
Proof.
  induction l as [|a l IH]; [done|].
  rewrite bind_cons, length_app, IH. simpl. lia.
Qed.





Lemma Qc_of_Z_neq_0 (n : Z) : n ≠ 0%Z → Qc_of_Z n ≠ 0.
Proof. intros Hn H. apply Hn, Z2Qc_inj. by rewrite H, Z2Qc_inj_0. Qed.

Lemma Qcminus_neq_0 (a b : Qc) : a ≠ b → b - a ≠ 0.
Proof. intros Hab H. apply Hab. rewrite <- (Qcplus_0_l a), <- H. ring. Qed.

Lemma step_neq_0 (a b : Qc) (n : Z) :
  (2 ≤ n)%Z → a ≠ b → (b - a) / Qc_of_Z (n - 1) ≠ 0.
Proof.
  intros Hn Hab H. apply (Qcminus_neq_0 a b Hab).
  assert (Qc_of_Z (n - 1) ≠ 0) as Hk by (apply Qc_of_Z_neq_0; lia).
  transitivity ((b - a) / Qc_of_Z (n - 1) * Qc_of_Z (n - 1)).
  - by field.
  - rewrite H. ring.
Qed.

(** In exact arithmetic [arange] gives the values [start + i*step]. *)
Lemma arange_ideal (start stop step : Qc) :
  step ≠ 0 →
  Numpy.arange ideal start stop step
  = let quotient : Qc := (stop - start) / step in
    Ok ((λ i : nat, start + Qc_of_Z (Z.of_nat i) * step)
          <$> seq 0 (Z.to_nat (Qceiling quotient))).
Proof.
  intros Hstep. unfold Numpy.arange, ideal.
  rewrite bool_decide_false by done. cbn zeta. f_equal.
  apply list_fmap_ext. intros _ i _.
  destruct i as [|[|i]].
  - change (Z.of_nat 0) with 0%Z. rewrite Z2Qc_inj_0. ring.
  - change (Z.of_nat 1) with 1%Z. rewrite Z2Qc_inj_1. ring.
  - ring.
Qed.

(** Exact steps stop one short of the end point. *)
Lemma arange_stops_short (a b : Qc) (n : Z) :
  (2 ≤ n)%Z → a ≠ b →
  Numpy.arange ideal a b ((b - a) / Qc_of_Z (n - 1))
    = Ok ((λ i : nat, a + Qc_of_Z (Z.of_nat i) * ((b - a) / Qc_of_Z (n - 1)))
            <$> seq 0 (Z.to_nat (n - 1))).
Proof.
  intros Hn Hab. rewrite arange_ideal by (by apply step_neq_0).
  assert (Qc_of_Z (n - 1) ≠ 0) as Hk by (apply Qc_of_Z_neq_0; lia).
  pose proof (Qcminus_neq_0 a b Hab) as Hd.
  cbn zeta. replace ((b - a) / ((b - a) / Qc_of_Z (n - 1))) with (Qc_of_Z (n - 1))
    by (by field).
  cbn [this Qc_of_Z]. by rewrite Qceiling_Z.
Qed.

Lemma axis_length (a b : Qc) (n : Z) : length (axis a b n) = Z.to_nat n.
Proof. unfold axis. by rewrite length_fmap, length_seq. Qed.




(** [arange] followed by the conditional [append]: the end point closes the
    sequence. *)
Lemma arange_append (a b : Qc) (n : Z) (r : list Qc) :
  (2 ≤ n)%Z → a ≠ b →
  Numpy.arange ideal a b ((b - a) / Qc_of_Z (n - 1)) = Ok r →
  (if bool_decide (Z.of_nat (length r) < n)%Z then Numpy.append r b else r)
  = axis a b n.
Proof.
  intros Hn Hab. rewrite arange_stops_short by done. intros [= <-].
  rewrite length_fmap, length_seq.
  rewrite bool_decide_true by lia.
  unfold Numpy.append, axis.
  replace (Z.to_nat n) with (S (Z.to_nat (n - 1))) by lia.
  rewrite seq_S, fmap_app. f_equal. simpl. f_equal.
  rewrite Z2Nat.id by lia.
  assert (Qc_of_Z (n - 1) ≠ 0) as Hk by (apply Qc_of_Z_neq_0; lia).
  by field.
Qed.

Section lemmas.
Context (P : grav_prism) (Sp : grav_sphere).





Lemma full_Ok (c : Qc) (n : Z) :
  (0 ≤ n)%Z → Numpy.full c n = Ok (replicate (Z.to_nat n) c).
Proof. intros Hn. unfold Numpy.full. by rewrite bool_decide_false by lia. Qed.

Lemma full_Raise (c : Qc) (n : Z) : (n < 0)%Z → Numpy.full c n = Raise ValueError.
Proof. intros Hn. unfold Numpy.full. by rewrite bool_decide_true by lia. Qed.

Lemma from_prisms_regular fl prisms x1 x2 y1 y2 nx ny height field function z g :
  prism_fields P !! field = Some function →
  (0 ≤ nx * ny)%Z →
  Numpy.multiply fl (neg height) (replicate (Z.to_nat (nx * ny)) 1) = Ok z →
  from_prisms fl P prisms x1 x2 y1 y2 nx ny height field "regular" g
  = match regular_grid fl x1 x2 y1 y2 nx ny (initial_data z (Z.to_nat (nx * ny))) with
    | Raise e => (Raise e, g)
    | Ok (xs, ys, data) =>
        match prisms_loop fl function prisms xs ys z
                          (replicate (Z.to_nat (nx * ny)) 0) with
        | Raise e => (Raise e, g)
        | Ok value =>
            (Ok (<["value" := VArr value]>
                   (<["y" := VArr ys]> (<["x" := VArr xs]> data))), g)
        end
    end.
Proof.
  intros Hf Hn Hz. unfold from_prisms.
  rewrite (bool_decide_true ("regular" ∈ _)) by set_solver.
  mstep. cbn zeta.
  rewrite (bool_decide_true (is_Some _)) by (by rewrite Hf).
  mstep. unfold Numpy.ones, Numpy.zeros. rewrite !full_Ok by done.
  mstep. rewrite Hz. do 3 mstep.
  fold (initial_data z (Z.to_nat (nx * ny))).
  rewrite (bool_decide_true ("regular" = "regular")) by done.
  rewrite (bool_decide_false ("regular" = "random")) by done.
  destruct (regular_grid fl _ _ _ _ _ _ _) as [[[xs ys] data]|e]; [|reflexivity].
  unfold getitem. rewrite Hf. mrun.
  erewrite (for_ext (enumerate (zip3 xs ys z)) _
    (λ '(i, pt) a, for_ prisms (λ b a, iadd fl a i (prism_effect function b pt)) a))
    by (by intros [i [[x y] z']] a).
  fold (prisms_loop fl function prisms xs ys z (replicate (Z.to_nat (nx * ny)) 0)).
  destruct (prisms_loop fl _ _ _ _ _ _); reflexivity.
Qed.


Lemma random_uniform_Ok fl (low high : Qc) (size : Z) (g : Numpy.RandomState) :
  (0 ≤ size)%Z →
  Numpy.random_uniform fl low high size g
  = (Ok (draws fl low high g (Z.to_nat size)), advance g (Z.to_nat size)).
Proof.
  intros Hn. unfold Numpy.random_uniform. by rewrite bool_decide_false by lia.
Qed.


Lemma from_prisms_random fl prisms x1 x2 y1 y2 nx ny height field function z g :
  prism_fields P !! field = Some function →
  (0 ≤ nx * ny)%Z →
  Numpy.multiply fl (neg height) (replicate (Z.to_nat (nx * ny)) 1) = Ok z →
  from_prisms fl P prisms x1 x2 y1 y2 nx ny height field "random" g
  = let n := Z.to_nat (nx * ny) in
    let xs := draws fl x1 x2 g n in
    let g1 := advance g n in
    let ys := if bool_decide (1 < ny)%Z then draws fl y1 y2 g1 n else [y1] in
    let g2 := if bool_decide (1 < ny)%Z then advance g1 n else g1 in
    match prisms_loop fl function prisms xs ys z (replicate n 0) with
    | Raise e => (Raise e, g2)
    | Ok value =>
        (Ok (<["value" := VArr value]>
               (<["y" := VArr ys]> (<["x" := VArr xs]> (random_data z n)))), g2)
    end.
Proof.
  intros Hf Hn Hz. unfold from_prisms.
  rewrite (bool_decide_true ("random" ∈ _)) by set_solver.
  mstep. cbn zeta.
  rewrite (bool_decide_true (is_Some _)) by (by rewrite Hf).
  mstep. unfold Numpy.ones, Numpy.zeros. rewrite !full_Ok by done.
  mstep. rewrite Hz. do 3 mstep.
  fold (initial_data z (Z.to_nat (nx * ny))).
  rewrite (bool_decide_false ("random" = "regular")) by done.
  rewrite (bool_decide_true ("random" = "random")) by done.
  unfold random_grid, getitem. rewrite Hf. mrun.
  rewrite random_uniform_Ok by done.
  fold (random_data z (Z.to_nat (nx * ny))).
  set (body := λ '(i, pt) a,
         for_ prisms (λ b a, iadd fl a i (prism_effect function b pt)) a).
  unfold prisms_loop. fold body.
  destruct (bool_decide (1 < ny)%Z).
  - rewrite random_uniform_Ok by done.
    erewrite (for_ext _ _ body) by (by intros [i [[x y] z']] a).
    destruct (for_ _ _ _); reflexivity.
  - erewrite (for_ext _ _ body) by (by intros [i [[x y] z']] a).
    destruct (for_ _ _ _); reflexivity.
Qed.

(** A call that returns went through both assertions and built [z]. *)
Lemma from_prisms_Ok_inv fl prisms x1 x2 y1 y2 nx ny height field grid g data g' :
  from_prisms fl P prisms x1 x2 y1 y2 nx ny height field grid g = (Ok data, g') →
  (grid = "regular" ∨ grid = "random")
  ∧ (0 ≤ nx * ny)%Z
  ∧ ∃ function z,
      prism_fields P !! field = Some function
      ∧ Numpy.multiply fl (neg height) (replicate (Z.to_nat (nx * ny)) 1) = Ok z.
Proof.
  unfold from_prisms.
  destruct (bool_decide (grid ∈ ["regular"; "random"])) eqn:Hg;
    [mstep|by mstep].
  apply bool_decide_eq_true in Hg. cbn zeta.
  destruct (prism_fields P !! field) as [function|] eqn:Hf.
  2:{ rewrite (bool_decide_false (is_Some _)) by (by intros [??]). by mstep. }
  rewrite (bool_decide_true (is_Some _)) by done. mstep.
  destruct (Z.lt_ge_cases (nx * ny) 0) as [Hn|Hn].
  { unfold Numpy.ones. rewrite full_Raise by done. by mstep. }
  unfold Numpy.ones. rewrite full_Ok by done. mstep.
  destruct (Numpy.multiply fl _ _) as [z|e] eqn:Hz; [|by mstep].
  intros _. split; [|split; [done|eauto]].
  apply elem_of_cons in Hg as [->|Hg]; [by left|].
  apply elem_of_cons in Hg as [->|Hg]; [by right|].
  by apply elem_of_nil in Hg.
Qed.

(** [-height * numpy.ones(n)] *)
Lemma multiply_neg_scalar (h : Qc) (n : nat) :
  Numpy.multiply ideal (neg (Scalar h)) (replicate n 1) = Ok (replicate n (- h)).
Proof.
  simpl. f_equal. rewrite fmap_replicate. f_equal. rewrite ideal_eq. ring.
Qed.

Lemma zip_with_mult_ones (a : list Qc) :
  zip_with (λ c v, ideal (c * v)) a (replicate (length a) 1) = a.
Proof.
  induction a as [|c a IH]; simpl; [done|]. rewrite IH, ideal_eq. f_equal. ring.
Qed.

Lemma multiply_neg_array (hs : list Qc) (n : nat) :
  length hs = n →
  Numpy.multiply ideal (neg (Array hs)) (replicate n 1) = Ok (Qcopp <$> hs).
Proof.
  intros <-. simpl.
  rewrite bool_decide_true by (by rewrite length_fmap, length_replicate).
  f_equal. rewrite <- (length_fmap Qcopp hs). apply zip_with_mult_ones.
Qed.

Lemma multiply_Raise fl (a : scalar_or_array) (b : list Qc) (e : exn) :
  Numpy.multiply fl a b = Raise e → e = ValueError.
Proof.
  unfold Numpy.multiply. intros H.
  repeat case_match; simplify_eq; done.
Qed.

Lemma prisms_loop_nil fl function xs ys z value :
  prisms_loop fl function [] xs ys z value = Ok value.
Proof.
  unfold prisms_loop.
  apply (for_enumerate_no_bodies (λ _, prism_effect function)).
Qed.

Lemma prisms_loop_zeros function prisms xs ys z n :
  (length xs ≤ n)%nat →
  prisms_loop ideal function prisms xs ys z (replicate n 0)
  = Ok (accumulated (prism_effect function) prisms (zip3 xs ys z) n).
Proof.
  intros Hn. apply for_enumerate_zeros.
  pose proof (zip3_length_le xs ys z) as [H _]. clear -H Hn. lia.
Qed.

Lemma spheres_loop_zeros store function spheres xs ys zs :
  spheres_loop store function spheres xs ys zs (replicate (length xs) 0)
  = Ok (accumulated_with store (sphere_effect function) spheres
          (zip3 xs ys zs) (length xs)).
Proof.
  apply for_enumerate_zeros_store. apply zip3_length_le.
Qed.

(** The dictionary that [regular_grid] returns. *)
Lemma regular_grid_data fl x1 x2 y1 y2 nx ny data xs ys data' :
  regular_grid fl x1 x2 y1 y2 nx ny data = Ok (xs, ys, data') →
  data' = <["ny" := VInt ny]> (<["nx" := VInt nx]> (<["grid" := VBool true]> data)).
Proof.
  unfold regular_grid. intros H.
  destruct (py_truediv fl (fl (x2 - x1)) _) as [dx|]; [|by rewrite result_bind_Raise in H].
  rewrite result_bind_Ok in H.
  destruct (Numpy.arange fl x1 _ _) as [xr|]; [|by rewrite result_bind_Raise in H].
  rewrite result_bind_Ok in H.
  destruct (if bool_decide (1 < ny)%Z then _ else _) as [yr|];
    [|by rewrite result_bind_Raise in H].
  rewrite result_bind_Ok in H.
  destruct (regular_points _ _). by simplify_eq.
Qed.

(** [from_spheres] as a decision tree over its checks. *)
Lemma from_spheres_cases fl spheres grid field :
  from_spheres fl Sp spheres grid field
  = match sphere_fields Sp !! field with
    | None => (Raise (AssertionError (invalid_gravity_field field)), grid)
    | Some function =>
        match grid !! "x", grid !! "y", grid !! "z" with
        | None, _, _ => (Raise (AssertionError (missing_key "x")), grid)
        | Some _, None, _ => (Raise (AssertionError (missing_key "y")), grid)
        | Some _, Some _, None => (Raise (AssertionError (missing_key "z")), grid)
        | Some vx, Some vy, Some vz =>
            match Numpy.asarray vx, as_array vy, as_array vz with
            | Ok gx, Ok ys, Ok zs =>
                (Ok tt,
                 <["value" := sphere_value fl function spheres gx ys zs]> grid)
            | Raise e, _, _ => (Raise e, grid)
            | Ok _, Raise e, _ => (Raise e, grid)
            | Ok _, Ok _, Raise e => (Raise e, grid)
            end
        end
    end.
Proof.
  unfold from_spheres. cbn zeta.
  destruct (sphere_fields Sp !! field) as [function|] eqn:Hf.
  2:{ rewrite (bool_decide_false (is_Some _)) by (by intros [??]). by mstep. }
  rewrite (bool_decide_true (is_Some _)) by done. mstep.
  unfold getitem. rewrite Hf. mrun.
  destruct (grid !! "x") as [vx|] eqn:Hx.
  2:{ by rewrite (bool_decide_false (is_Some _)) by (by intros [??]). }
  rewrite (bool_decide_true (is_Some (Some vx))) by done.
  destruct (grid !! "y") as [vy|] eqn:Hy.
  2:{ by rewrite (bool_decide_false (is_Some _)) by (by intros [??]). }
  rewrite (bool_decide_true (is_Some (Some vy))) by done.
  destruct (grid !! "z") as [vz|] eqn:Hz.
  2:{ by rewrite (bool_decide_false (is_Some _)) by (by intros [??]). }
  rewrite (bool_decide_true (is_Some (Some vz))) by done.
  rewrite !result_bind_Ok.
  destruct (Numpy.asarray vx) as [gx|]; [|done].
  destruct (as_array vy) as [ys|]; [|done].
  destruct (as_array vz) as [zs|]; [|done].
  erewrite (for_ext (enumerate (zip3 (Numpy.items gx) ys zs)) _
    (λ '(i, pt) a,
       for_ spheres (λ b a, iadd (Numpy.store fl (Numpy.type gx)) a i
                              (sphere_effect function b pt)) a))
    by (by intros [i [[x y] z']] a).
  unfold Numpy.zeros_like. cbn [Numpy.items].
  fold (spheres_loop (Numpy.store fl (Numpy.type gx)) function spheres
          (Numpy.items gx) ys zs (replicate (length (Numpy.items gx)) 0)).
  by rewrite spheres_loop_zeros.
Qed.

(** *** What can go wrong *)

Lemma for_Raise {A S} (l : list A) (body : A → S → result S) (s : S)
    (e e0 : exn) :
  (∀ a s e, body a s = Raise e → e = e0) →
  for_ l body s = Raise e → e = e0.
Proof.
  intros Hbody. revert s. induction l as [|a l IH]; intros s; [done|].
  rewrite for_cons. destruct (body a s) as [s'|e'] eqn:Hb.
  - rewrite result_bind_Ok. apply IH.
  - rewrite result_bind_Raise. intros [= <-]. by eapply Hbody.
Qed.

Lemma iadd_Raise fl (a : list Qc) i c e : iadd fl a i c = Raise e → e = IndexError.
Proof. unfold iadd. destruct (a !! i); by intros [=]. Qed.

Lemma prisms_loop_Raise fl function prisms xs ys z value e :
  prisms_loop fl function prisms xs ys z value = Raise e → e = IndexError.
Proof.
  unfold prisms_loop. apply for_Raise. intros [i pt] a e'.
  apply for_Raise. intros b a' e''. apply iadd_Raise.
Qed.

Lemma py_truediv_Raise fl (a : Qc) (b : Z) (e : exn) :
  py_truediv fl a b = Raise e → e = ZeroDivisionError.
Proof. unfold py_truediv. case_bool_decide; by intros [=]. Qed.

Lemma arange_Raise fl (a b step : Qc) (e : exn) :
  Numpy.arange fl a b step = Raise e → e = ZeroDivisionError.
Proof. unfold Numpy.arange. case_bool_decide; by intros [=]. Qed.

Lemma regular_grid_Raise fl x1 x2 y1 y2 nx ny data e :
  regular_grid fl x1 x2 y1 y2 nx ny data = Raise e → e = ZeroDivisionError.
Proof.
  unfold regular_grid. intros H.
  destruct (py_truediv fl (fl (x2 - x1)) _) as [dx|e1] eqn:Hdx.
  2:{ rewrite result_bind_Raise in H. injection H as <-.
      by eapply py_truediv_Raise. }
  rewrite result_bind_Ok in H.
  destruct (Numpy.arange fl x1 _ _) as [xr|e1] eqn:Hxr.
  2:{ rewrite result_bind_Raise in H. injection H as <-.
      by eapply arange_Raise. }
  rewrite result_bind_Ok in H.
  destruct (if bool_decide (1 < ny)%Z then _ else _) as [yr|e1] eqn:Hyr.
  2:{ rewrite result_bind_Raise in H. injection H as <-.
      case_bool_decide; [|done].
      destruct (py_truediv fl (fl (y2 - y1)) _) as [dy|e2] eqn:Hdy.
      - rewrite result_bind_Ok in Hyr. by eapply arange_Raise.
      - rewrite result_bind_Raise in Hyr. injection Hyr as <-.
        by eapply py_truediv_Raise. }
  rewrite result_bind_Ok in H.
  by destruct (regular_points _ _).
Qed.

(** The failures of [from_prisms], in the order of its checks. *)
Lemma from_prisms_Raise_inv fl prisms x1 x2 y1 y2 nx ny height field grid g e g' :
  from_prisms fl P prisms x1 x2 y1 y2 nx ny height field grid g = (Raise e, g') →
  (¬ grid ∈ ["regular"; "random"]
   ∧ e = AssertionError (invalid_grid_type grid))
  ∨ (grid ∈ ["regular"; "random"] ∧ prism_fields P !! field = None
     ∧ e = AssertionError (invalid_gravity_field field))
  ∨ (grid ∈ ["regular"; "random"] ∧ is_Some (prism_fields P !! field)
     ∧ e ∈ [ValueError; ZeroDivisionError; IndexError]).
Proof.
  intros H.
  destruct (decide (grid ∈ ["regular"; "random"])) as [Hg|Hg].
  2:{ left. split; [done|].
      unfold from_prisms in H.
      rewrite (bool_decide_false (grid ∈ _)), py_assert_false in H by done.
      by injection H as <- _. }
  right.
  destruct (prism_fields P !! field) as [function|] eqn:Hf.
  2:{ left. do 2 (split; [done|]).
      unfold from_prisms in H.
      rewrite (bool_decide_true (grid ∈ _)), py_assert_true in H by done.
      cbn beta zeta in H.
      rewrite (bool_decide_false (is_Some _)), py_assert_false in H
        by (rewrite Hf; by intros [??]).
      by injection H as <- _. }
  right. do 2 (split; [done|]).
  destruct (Z.lt_ge_cases (nx * ny) 0) as [Hn|Hn].
  { unfold from_prisms in H.
    rewrite (bool_decide_true (grid ∈ _)), py_assert_true in H by done.
    cbn beta zeta in H.
    rewrite (bool_decide_true (is_Some _)), py_assert_true in H
      by (by rewrite Hf).
    cbn beta in H. unfold Numpy.ones in H.
    rewrite full_Raise, M_bind_lift_Raise in H by done.
    injection H as <- _. by repeat constructor. }
  destruct (Numpy.multiply fl (neg height) (replicate (Z.to_nat (nx * ny)) 1))
    as [z|e1] eqn:Hz.
  2:{ unfold from_prisms in H.
      rewrite (bool_decide_true (grid ∈ _)), py_assert_true in H by done.
      cbn beta zeta in H.
      rewrite (bool_decide_true (is_Some _)), py_assert_true in H
        by (by rewrite Hf).
      cbn beta in H. unfold Numpy.ones in H.
      rewrite full_Ok, M_bind_lift_Ok in H by done. cbn beta in H.
      rewrite Hz, M_bind_lift_Raise in H.
      injection H as <- _. apply multiply_Raise in Hz as ->.
      by repeat constructor. }
  apply elem_of_cons in Hg as [->|Hg].
  - rewrite (from_prisms_regular _ _ _ _ _ _ _ _ _ _ function z) in H by done.
    destruct (regular_grid fl _ _ _ _ _ _ _) as [[[xs ys] data]|e1] eqn:Hr.
    + destruct (prisms_loop fl _ _ _ _ _ _) as [v|e1] eqn:Hl; [done|].
      injection H as <- _. apply prisms_loop_Raise in Hl as ->.
      by repeat constructor.
    + injection H as <- _. apply regular_grid_Raise in Hr as ->.
      by repeat constructor.
  - apply elem_of_cons in Hg as [->|Hg]; [|by apply elem_of_nil in Hg].
    rewrite (from_prisms_random _ _ _ _ _ _ _ _ _ _ function z) in H by done.
    cbn zeta in H.
    destruct (prisms_loop fl _ _ _ _ _ _) as [v|e1] eqn:Hl; [done|].
    injection H as <- _. apply prisms_loop_Raise in Hl as ->.
      by repeat constructor.
Qed.



Lemma accumulated_lookup {B T} (c : B → T → Qc) (bodies : list B)
    (pts : list T) (n i : nat) (pt : T) :
  pts !! i = Some pt →
  accumulated c bodies pts n !! i = Some (Qcsum ((λ b, c b pt) <$> bodies)).
Proof.
  intros Hi. unfold accumulated.
  rewrite lookup_app_l by (rewrite length_fmap; by eapply lookup_lt_Some).
  by rewrite list_lookup_fmap, Hi.
Qed.

Lemma zip3_lookup {A} (a b c : list A) (i : nat) (x y z : A) :
  a !! i = Some x → b !! i = Some y → c !! i = Some z →
  zip3 a b c !! i = Some (x, y, z).
Proof.
  intros Ha Hb Hc. unfold zip3.
  apply lookup_zip_with_Some. exists (x, y), z. split; [done|].
  split; [|done]. apply lookup_zip_with_Some. by exists x, y.
Qed.

(** The two kinds of sequence. *)
Lemma asarray_Ok (v : pyval) (gx : Numpy.ndarray) :
  Numpy.asarray v = Ok gx →
  (v = VArr (Numpy.items gx) ∧ Numpy.type gx = Numpy.float64)
  ∨ (∃ a, v = VIntArr a ∧ Numpy.items gx = Qc_of_Z <$> a
          ∧ Numpy.type gx = Numpy.int64).
Proof.
  destruct v as [a|a|b|n]; intros [= <-]; [by left|right; by exists a].
Qed.



(** A call of [from_spheres] that returns went through all its checks. *)
Lemma from_spheres_Ok_inv fl spheres grid field u grid' :
  from_spheres fl Sp spheres grid field = (Ok u, grid') →
  ∃ function vx vy vz gx ys zs,
    sphere_fields Sp !! field = Some function
    ∧ grid !! "x" = Some vx ∧ grid !! "y" = Some vy ∧ grid !! "z" = Some vz
    ∧ Numpy.asarray vx = Ok gx ∧ as_array vy = Ok ys ∧ as_array vz = Ok zs
    ∧ u = tt
    ∧ grid' = <["value" := sphere_value fl function spheres gx ys zs]> grid.
Proof.
  rewrite from_spheres_cases. intros H.
  destruct (sphere_fields Sp !! field) as [function|]; [|done].
  destruct (grid !! "x") as [vx|]; [|done].
  destruct (grid !! "y") as [vy|]; [|done].
  destruct (grid !! "z") as [vz|]; [|done].
  destruct (Numpy.asarray vx) as [gx|] eqn:Hx; [|done].
  destruct (as_array vy) as [ys|] eqn:Hy; [|done].
  destruct (as_array vz) as [zs|] eqn:Hz; [|done].
  injection H as <- <-. by exists function, vx, vy, vz, gx, ys, zs.
Qed.

Lemma multiply_height (height : scalar_or_array) (n : Z) :
  (0 ≤ n)%Z → height_fits height n →
  ∃ z, Numpy.multiply ideal (neg height) (replicate (Z.to_nat n) 1) = Ok z
       ∧ length z = Z.to_nat n.
Proof.
  intros Hn Hfit. destruct height as [h|hs].
  - eexists. split; [apply multiply_neg_scalar|]. by rewrite length_replicate.
  - simpl in Hfit. eexists. split; [apply multiply_neg_array; lia|].
    rewrite length_fmap. lia.
Qed.



(** A zero step stops [arange]. *)
Lemma arange_degenerate (a : Qc) (n : Z) :
  Numpy.arange ideal a a ((a - a) / Qc_of_Z n) = Raise ZeroDivisionError.
Proof.
  unfold Numpy.arange. rewrite bool_decide_true; [done|].
  unfold Qcdiv. ring.
Qed.


(** The product with [n] ones has [n] entries, unless [n = 1]. *)
Lemma multiply_ones_length fl (a : scalar_or_array) (n : nat) (z : list Qc) :
  n ≠ 1%nat → Numpy.multiply fl a (replicate n 1) = Ok z → length z = n.
Proof.
  intros Hn. unfold Numpy.multiply. destruct a as [c|a].
  - intros [= <-]. by rewrite length_fmap, length_replicate.
  - case_bool_decide as Hlen.
    + intros [= <-]. rewrite length_zip_with, length_replicate.
      rewrite length_replicate in Hlen. lia.
    + destruct a as [|c [|c' a]].
      * destruct n as [|[|n]]; simpl; [done..|]. by intros [=].
      * intros [= <-]. by rewrite length_fmap, length_replicate.
      * destruct n as [|[|n]]; simpl; [done..|]. by intros [=].
Qed.

(** *** Random scatter over two or more rows *)

Lemma draws_length fl (low high : Qc) (g : Numpy.RandomState) (n : nat) :
  length (draws fl low high g n) = n.
Proof. unfold draws. by rewrite length_fmap, length_seq. Qed.

(** Samples of the unit interval land between [low] and [high]. *)
Lemma draws_in_range (low high : Qc) (g : Numpy.RandomState) (n : nat) :
  low ≤ high →
  (∀ k, 0 ≤ Numpy.samples g k ∧ Numpy.samples g k ≤ 1) →
  Forall (λ v, low ≤ v ∧ v ≤ high) (draws ideal low high g n).
Proof.
  intros Hle Hunit. unfold draws. apply Forall_fmap, Forall_forall.
  intros k _. simpl.
  destruct (Hunit (Numpy.consumed g + k)%nat) as [H0 H1].
  assert (0 ≤ high - low) as Hd.
  { apply (Qcplus_le_mono_r _ _ low). by ring_simplify. }
  split.
  - rewrite <- (Qcplus_0_r low) at 1. apply Qcplus_le_mono_l.
    by apply Qcmult_nonneg_nonneg.
  - replace high with (low + (high - low) * 1) at 2 by ring.
    apply Qcplus_le_mono_l. by apply Qcmult_le_mono_nonneg_l.
Qed.

(** In random mode with [ny > 1] the call returns [nx*ny] points, all of
    them inside the region when its limits are in order. *)
Lemma from_prisms_random_scatter prisms x1 x2 y1 y2 nx ny height field g :
  is_Some (prism_fields P !! field) →
  height_fits height (nx * ny) →
  (0 ≤ nx * ny)%Z → (1 < ny)%Z →
  ∃ data xs ys,
    from_prisms ideal P prisms x1 x2 y1 y2 nx ny height field "random" g
    = (Ok data, advance (advance g (Z.to_nat (nx * ny))) (Z.to_nat (nx * ny)))
    ∧ data !! "x" = Some (VArr xs) ∧ data !! "y" = Some (VArr ys)
    ∧ length xs = Z.to_nat (nx * ny) ∧ length ys = Z.to_nat (nx * ny)
    ∧ ((∀ k, 0 ≤ Numpy.samples g k ∧ Numpy.samples g k ≤ 1) →
       x1 ≤ x2 → y1 ≤ y2 →
       Forall (λ x, x1 ≤ x ∧ x ≤ x2) xs ∧ Forall (λ y, y1 ≤ y ∧ y ≤ y2) ys).
Proof.
  intros [function Hf] Hfit Hn Hny.
  destruct (multiply_height height (nx * ny)) as (z & Hz & Hzlen);
    [done..|].
  rewrite (from_prisms_random _ _ _ _ _ _ _ _ _ _ function z) by done.
  cbn zeta. rewrite !(bool_decide_true (1 < ny)%Z) by done.
  rewrite prisms_loop_zeros by (by rewrite draws_length).
  eexists _, _, _. split; [reflexivity|].
  split; [done|]. split; [done|].
  split; [apply draws_length|]. split; [apply draws_length|].
  intros Hunit Hx Hy. split; by apply draws_in_range.
Qed.

End lemmas.

(** ** The regular grid with rounding *)

Lemma arange_items (fl : rounding) (start stop d : Qc) :
  d ≠ 0 →
  Numpy.arange fl start stop d
  = Ok (arange_item fl start d <$> seq 0 (Z.to_nat (arange_length fl start stop d))).
Proof.
  intros Hd. unfold Numpy.arange. by rewrite bool_decide_false by done.
Qed.

Lemma arange_zero_step (fl : rounding) (start stop : Qc) :
  Numpy.arange fl start stop 0 = Raise ZeroDivisionError.
Proof. unfold Numpy.arange. by rewrite bool_decide_true by done. Qed.

(** A region without extent has a zero step, whatever the rounding, as
    long as zero is kept. *)
Lemma step_degenerate (fl : rounding) (a : Qc) (n : Z) :
  fl 0 = 0 → step fl a a n = 0.
Proof.
  intros H0. unfold step.
  replace (a - a) with (0 : Qc) by ring. rewrite H0.
  replace (0 / Qc_of_Z (n - 1)) with (0 : Qc) by (unfold Qcdiv; ring).
  done.
Qed.


(** [regular_grid] for any rounding: it fails on a division by zero, and
    otherwise pairs every y of its range of rows with the whole range of
    x-values. *)
Lemma regular_grid_ranges (fl : rounding) (x1 x2 y1 y2 : Qc) (nx ny : Z)
    (data : gmap string pyval) :
  regular_grid fl x1 x2 y1 y2 nx ny data
  = if bool_decide (nx = 1%Z ∨ step fl x1 x2 nx = 0
                    ∨ ((1 < ny)%Z ∧ step fl y1 y2 ny = 0))
    then Raise ZeroDivisionError
    else
      let x_range := axis_range fl x1 x2 nx in
      let y_range := rows_range fl y1 y2 ny in
      Ok (y_range ≫= (λ _, x_range),
          y_range ≫= (λ y, replicate (length x_range) y),
          <["ny" := VInt ny]>
            (<["nx" := VInt nx]> (<["grid" := VBool true]> data))).
Proof.
  unfold regular_grid, py_truediv.
  destruct (decide (nx = 1%Z)) as [->|Hnx].
  { rewrite (bool_decide_true (1 - 1 = 0)%Z) by done.
    by rewrite (bool_decide_true (_ ∨ _)) by (by left). }
  rewrite (bool_decide_false (nx - 1 = 0)%Z) by lia.
  rewrite result_bind_Ok. fold (step fl x1 x2 nx).
  destruct (decide (step fl x1 x2 nx = 0)) as [Hdx|Hdx].
  { rewrite Hdx, arange_zero_step.
    by rewrite (bool_decide_true (_ ∨ _)) by (right; by left). }
  rewrite arange_items, result_bind_Ok by done.
  destruct (decide (1 < ny)%Z) as [Hny|Hny].
  - rewrite (bool_decide_true (1 < ny)%Z) by done.
    rewrite (bool_decide_false (ny - 1 = 0)%Z) by lia.
    rewrite result_bind_Ok. fold (step fl y1 y2 ny).
    destruct (decide (step fl y1 y2 ny = 0)) as [Hdy|Hdy].
    { rewrite Hdy, arange_zero_step.
      by rewrite (bool_decide_true (_ ∨ _)) by (right; by right). }
    rewrite arange_items, result_bind_Ok by done.
    rewrite (bool_decide_false (_ ∨ _)) by (intros [?|[?|[_ ?]]]; done).
    cbn zeta. unfold rows_range. rewrite (bool_decide_true (1 < ny)%Z) by done.
    unfold Numpy.append. fold (axis_range fl x1 x2 nx) (axis_range fl y1 y2 ny).
    by rewrite regular_points_eq.
  - rewrite (bool_decide_false (1 < ny)%Z) by done.
    rewrite result_bind_Ok.
    rewrite (bool_decide_false (_ ∨ _)) by (intros [?|[?|[? _]]]; done).
    cbn zeta. unfold rows_range. rewrite (bool_decide_false (1 < ny)%Z) by done.
    rewrite (bool_decide_false (Z.of_nat (length [y1]) < ny)%Z) by (simpl; lia).
    unfold Numpy.append. fold (axis_range fl x1 x2 nx).
    by rewrite regular_points_eq.
Qed.

(** *** A range of [n] points *)

Section axis_range.
Context (fl : rounding) (a b : Qc) (n : Z).





End axis_range.








(** *** The z array for any rounding *)

Lemma multiply_fits (fl : rounding) (height : scalar_or_array) (n : Z) :
  (0 ≤ n)%Z → height_fits height n →
  ∃ z, Numpy.multiply fl (neg height) (replicate (Z.to_nat n) 1) = Ok z
       ∧ length z = Z.to_nat n.
Proof.
  intros Hn Hfit. destruct height as [h|hs]; simpl.
  - eexists. split; [done|]. by rewrite length_fmap, length_replicate.
  - simpl in Hfit.
    rewrite bool_decide_true by (rewrite length_fmap, length_replicate; lia).
    eexists. split; [done|].
    rewrite length_zip_with, length_fmap, length_replicate. lia.
Qed.

Lemma multiply_broadcasts (fl : rounding) (height : scalar_or_array) (n : nat) :
  height_broadcasts height n →
  ∃ z, Numpy.multiply fl (neg height) (replicate n 1) = Ok z.
Proof.
  destruct height as [h|hs]; simpl; [eauto|].
  rewrite length_fmap, length_replicate. intros Hb.
  case_bool_decide as Hlen; [eauto|].
  destruct hs as [|c [|c' hs]]; simpl in *.
  - destruct Hb as [?|[?| ->]]; [done..|]. simpl. eauto.
  - eauto.
  - destruct Hb as [?|[?| ->]]; [done..|]. simpl. eauto.
Qed.

Lemma multiply_needs (fl : rounding) (height : scalar_or_array) (n : nat)
    (z : list Qc) :
  Numpy.multiply fl (neg height) (replicate n 1) = Ok z →
  height_broadcasts height n.
Proof.
  destruct height as [h|hs]; simpl; [done|].
  rewrite length_fmap, length_replicate.
  case_bool_decide as Hlen; [by left|].
  destruct hs as [|c [|c' hs]]; simpl.
  - destruct n as [|[|n]]; simpl; [done| |done]. intros _. by right; right.
  - intros _. right. by left.
  - destruct n as [|[|n]]; simpl; [done| |done]. intros _. by right; right.
Qed.

(** *** The loop of [from_prisms] for any rounding *)

Lemma prisms_loop_store (store : Qc → Qc) function prisms xs ys z n :
  (length (zip3 xs ys z) ≤ n)%nat →
  prisms_loop store function prisms xs ys z (replicate n 0)
  = Ok (accumulated_with store (prism_effect function) prisms (zip3 xs ys z) n).
Proof. intros Hn. by apply for_enumerate_zeros_store. Qed.

(** *** [from_prisms] for any rounding *)

Section tree.
Context (P : grav_prism).

(** [from_prisms] as a decision tree over its checks, in the order the
    code makes them. *)
Lemma from_prisms_tree fl prisms x1 x2 y1 y2 nx ny height field grid g :
  from_prisms fl P prisms x1 x2 y1 y2 nx ny height field grid g
  = if bool_decide (grid ∈ ["regular"; "random"]) then
      match prism_fields P !! field with
      | None => (Raise (AssertionError (invalid_gravity_field field)), g)
      | Some function =>
          if bool_decide (nx * ny < 0)%Z then (Raise ValueError, g)
          else
            let n := Z.to_nat (nx * ny) in
            match Numpy.multiply fl (neg height) (replicate n 1) with
            | Raise _ => (Raise ValueError, g)
            | Ok z =>
                if bool_decide (grid = "regular") then
                  if bool_decide (nx = 1%Z ∨ step fl x1 x2 nx = 0
                                  ∨ ((1 < ny)%Z ∧ step fl y1 y2 ny = 0))
                  then (Raise ZeroDivisionError, g)
                  else
                    let x_range := axis_range fl x1 x2 nx in
                    let y_range := rows_range fl y1 y2 ny in
                    let xs := y_range ≫= (λ _, x_range) in
                    let ys := y_range ≫= (λ y, replicate (length x_range) y) in
                    match prisms_loop fl function prisms xs ys z
                                      (replicate n 0) with
                    | Raise e => (Raise e, g)
                    | Ok value =>
                        (Ok (<["value" := VArr value]>
                               (<["y" := VArr ys]>
                                  (<["x" := VArr xs]> (regular_data z nx ny)))),
                         g)
                    end
                else
                  let xs := draws fl x1 x2 g n in
                  let ys := if bool_decide (1 < ny)%Z
                            then draws fl y1 y2 (advance g n) n else [y1] in
                  (Ok (<["value" := VArr (accumulated_with fl
                                            (prism_effect function) prisms
                                            (zip3 xs ys z) n)]>
                         (<["y" := VArr ys]>
                            (<["x" := VArr xs]> (random_data z n)))),
                   random_after ny n g)
            end
      end
    else (Raise (AssertionError (invalid_grid_type grid)), g).
Proof.
  case_bool_decide as Hg.
  2:{ unfold from_prisms.
      by rewrite (bool_decide_false (grid ∈ _)), py_assert_false by done. }
  destruct (prism_fields P !! field) as [function|] eqn:Hf.
  2:{ unfold from_prisms.
      rewrite (bool_decide_true (grid ∈ _)), py_assert_true by done.
      cbn beta zeta.
      by rewrite (bool_decide_false (is_Some _)), py_assert_false
        by (rewrite Hf; by intros [??]). }
  case_bool_decide as Hn.
  { unfold from_prisms.
    rewrite (bool_decide_true (grid ∈ _)), py_assert_true by done.
    cbn beta zeta.
    rewrite (bool_decide_true (is_Some _)), py_assert_true by (by rewrite Hf).
    cbn beta. unfold Numpy.ones.
    by rewrite full_Raise, M_bind_lift_Raise by done. }
  cbn zeta.
  destruct (Numpy.multiply fl _ _) as [z|e] eqn:Hz.
  2:{ unfold from_prisms.
      rewrite (bool_decide_true (grid ∈ _)), py_assert_true by done.
      cbn beta zeta.
      rewrite (bool_decide_true (is_Some _)), py_assert_true by (by rewrite Hf).
      cbn beta. unfold Numpy.ones.
      rewrite full_Ok, M_bind_lift_Ok by lia. cbn beta.
      rewrite Hz, M_bind_lift_Raise.
      by apply multiply_Raise in Hz as ->. }
  apply elem_of_cons in Hg as [->|Hg].
  - rewrite (bool_decide_true ("regular" = "regular")) by done.
    rewrite (from_prisms_regular _ _ _ _ _ _ _ _ _ _ _ function z)
      by (done || lia).
    rewrite regular_grid_ranges.
    case_bool_decide as Hbad; [done|]. reflexivity.
  - apply elem_of_cons in Hg as [->|Hg]; [|by apply elem_of_nil in Hg].
    rewrite (bool_decide_false ("random" = "regular")) by done.
    rewrite (from_prisms_random _ _ _ _ _ _ _ _ _ _ _ function z)
      by (done || lia).
    cbn zeta. rewrite prisms_loop_store.
    + unfold random_after. by destruct (bool_decide (1 < ny)%Z).
    + etrans; [apply (proj1 (zip3_length_le _ _ _))|].
      by rewrite draws_length.
Qed.

End tree.

(** ** The field tables *)


Lemma list_to_map_is_Some {V} (l : list (string * V)) (k : string) :
  is_Some ((list_to_map l : gmap string V) !! k) ↔ k ∈ l.*1.
Proof.
  rewrite <- not_eq_None_Some, <- not_elem_of_list_to_map.
  destruct (decide (k ∈ l.*1)); tauto.
Qed.

Lemma prism_fields_keys (P : grav_prism) (field : string) :
  is_Some (prism_fields P !! field) ↔ field ∈ prism_field_names.
Proof. apply list_to_map_is_Some. Qed.

Lemma sphere_fields_keys (Sp : grav_sphere) (field : string) :
  is_Some (sphere_fields Sp !! field) ↔ field ∈ sphere_field_names.
Proof. apply list_to_map_is_Some. Qed.

(** The two assertion messages of [from_prisms] never coincide. *)
Lemma invalid_grid_type_neq (grid field : string) :
  invalid_grid_type grid ≠ invalid_gravity_field field.
Proof. unfold invalid_grid_type, invalid_gravity_field. simpl. intros [=]. Qed.


(** * The claims *)

Section claims.
Context (P : grav_prism) (Sp : grav_sphere).

(** C8.  A grid type other than ['regular'] and ['random'] fails the first
    assertion of [from_prisms]: the call raises [AssertionError] with the
    grid-type message whatever the other arguments are, and the generator
    is left as it was, so nothing has been generated or computed. *)
Theorem from_prisms_invalid_grid fl prisms x1 x2 y1 y2 nx ny height field grid g :
  grid ≠ "regular" → grid ≠ "random" →
  from_prisms fl P prisms x1 x2 y1 y2 nx ny height field grid g
  = (Raise (AssertionError (invalid_grid_type grid)), g).
Proof.
  intros Hreg Hrand. unfold from_prisms.
  rewrite (bool_decide_false (grid ∈ _)); [by rewrite py_assert_false|].
  intros Hg. apply elem_of_cons in Hg as [->|Hg]; [done|].
  apply elem_of_cons in Hg as [->|Hg]; [done|].
  by apply elem_of_nil in Hg.
Qed.

(** C3.  [from_spheres] rejects every field name outside gz, gxx, gyy,
    gzz with the invalid-field [AssertionError], whatever the spheres and
    the grid, and leaves the grid as it was; its table holds exactly these
    four names, the table of [from_prisms] exactly the seven names, and
    [from_prisms] never raises the invalid-field error for one of the
    seven. *)
Theorem from_spheres_unsupported_field :
  (∀ fl spheres grid field,
     field ∉ sphere_field_names →
     from_spheres fl Sp spheres grid field
     = (Raise (AssertionError (invalid_gravity_field field)), grid))
  ∧ (∀ field, is_Some (sphere_fields Sp !! field) ↔ field ∈ sphere_field_names)
  ∧ (∀ field, is_Some (prism_fields P !! field) ↔ field ∈ prism_field_names)
  ∧ (∀ fl prisms x1 x2 y1 y2 nx ny height field grid g,
       field ∈ prism_field_names →
       (from_prisms fl P prisms x1 x2 y1 y2 nx ny height field grid g).1
       ≠ Raise (AssertionError (invalid_gravity_field field))).
Proof.
  split; [|split; [|split]].
  - intros fl spheres grid field Hfield. rewrite from_spheres_cases.
    destruct (sphere_fields Sp !! field) eqn:Hf; [|done].
    destruct Hfield. apply (proj1 (sphere_fields_keys Sp field)).
    by rewrite Hf.
  - apply sphere_fields_keys.
  - apply prism_fields_keys.
  - intros fl prisms x1 x2 y1 y2 nx ny height field grid g Hfield.
    destruct (from_prisms _ _ _ _ _ _ _ _ _ _ _ _ _) as [[data|e] g'] eqn:Hcall;
      [done|].
    simpl. intros [= ->].
    apply from_prisms_Raise_inv in Hcall as [[_ He]|[(_ & Hf & _)|(_ & _ & He)]].
    + apply (invalid_grid_type_neq grid field). congruence.
    + apply (proj2 (prism_fields_keys P field)) in Hfield as [? Hfield].
      congruence.
    + apply elem_of_cons in He as [|He]; [done|].
      apply elem_of_cons in He as [|He]; [done|].
      apply elem_of_cons in He as [|He]; [done|].
      by apply elem_of_nil in He.
Qed.

(** C4, amended.  A grid that lacks 'x', 'y' or 'z' makes [from_spheres]
    raise an [AssertionError] and leaves the grid as it was.  The field
    name is checked first: with an unsupported name the error is the
    invalid-field one; with a supported name it is the missing-key error
    for the first of 'x', 'y', 'z', in this order, that the grid lacks.
    And whenever [from_spheres] raises, for any reason, the caller's grid
    is exactly as it was. *)
Theorem from_spheres_missing_key fl spheres grid field :
  (grid !! "x" = None ∨ grid !! "y" = None ∨ grid !! "z" = None →
   from_spheres fl Sp spheres grid field
   = (Raise (AssertionError
               (if bool_decide (field ∈ sphere_field_names)
                then missing_key (first_missing grid)
                else invalid_gravity_field field)),
      grid)
   ∧ grid !! first_missing grid = None
   ∧ (first_missing grid = "x"
      ∨ first_missing grid = "y" ∧ is_Some (grid !! "x")
      ∨ first_missing grid = "z" ∧ is_Some (grid !! "x")
        ∧ is_Some (grid !! "y")))
  ∧ (∀ e grid', from_spheres fl Sp spheres grid field = (Raise e, grid') →
                grid' = grid).
Proof.
  split.
  - intros Hmissing. rewrite from_spheres_cases. unfold first_missing.
    destruct (sphere_fields Sp !! field) as [function|] eqn:Hf.
    + rewrite (bool_decide_true (field ∈ _))
        by (apply (proj1 (sphere_fields_keys Sp field)); by rewrite Hf).
      destruct (grid !! "x") as [vx|] eqn:Hx.
      2:{ rewrite (bool_decide_true (None = None)) by done.
          split; [done|]. split; [done|]. by left. }
      rewrite (bool_decide_false (Some vx = None)) by done.
      destruct (grid !! "y") as [vy|] eqn:Hy.
      2:{ rewrite (bool_decide_true (None = None)) by done.
          split; [done|]. split; [done|]. right. left. by split. }
      rewrite (bool_decide_false (Some vy = None)) by done.
      destruct (grid !! "z") as [vz|] eqn:Hz.
      { by destruct Hmissing as [|[|]]. }
      split; [done|]. split; [done|]. right. right. by repeat split.
    + rewrite (bool_decide_false (field ∈ _)).
      2:{ intros Hin. apply (proj2 (sphere_fields_keys Sp field)) in Hin as [? Hin].
          congruence. }
      split; [done|].
      destruct (grid !! "x") as [vx|] eqn:Hx.
      2:{ rewrite (bool_decide_true (None = None)) by done.
          split; [done|]. by left. }
      rewrite (bool_decide_false (Some vx = None)) by done.
      destruct (grid !! "y") as [vy|] eqn:Hy.
      2:{ rewrite (bool_decide_true (None = None)) by done.
          split; [done|]. right. left. by split. }
      rewrite (bool_decide_false (Some vy = None)) by done.
      destruct (grid !! "z") as [vz|] eqn:Hz.
      { by destruct Hmissing as [|[|]]. }
      split; [done|]. right. right. by repeat split.
  - rewrite from_spheres_cases. intros e grid' H.
    repeat case_match; by simplify_eq.
Qed.


(** C5.  With an empty list of bodies the field is zero at every point,
    whatever the rounding: a call of [from_prisms] that returns holds
    [nx*ny] zeros under ['value'], and a call of [from_spheres] that
    returns has stored one zero for each entry of the grid's 'x', floats
    for an array of floats and integers for an array of integers. *)
Theorem empty_model_zero :
  (∀ fl x1 x2 y1 y2 nx ny height field grid g data g',
     from_prisms fl P [] x1 x2 y1 y2 nx ny height field grid g = (Ok data, g') →
     data !! "value" = Some (VArr (replicate (Z.to_nat (nx * ny)) 0)))
  ∧ (∀ fl grid field u grid',
       from_spheres fl Sp [] grid field = (Ok u, grid') →
       (∃ xs, grid !! "x" = Some (VArr xs)
              ∧ grid' !! "value" = Some (VArr (replicate (length xs) 0)))
       ∨ (∃ xs, grid !! "x" = Some (VIntArr xs)
                ∧ grid' !! "value"
                  = Some (VIntArr (replicate (length xs) 0%Z)))).
Proof.
  split.
  - intros fl x1 x2 y1 y2 nx ny height field grid g data g' H.
    destruct (from_prisms_Ok_inv P _ _ _ _ _ _ _ _ _ _ _ _ _ _ H)
      as ([->| ->] & Hn & function & z & Hf & Hz).
    + rewrite (from_prisms_regular P _ _ _ _ _ _ _ _ _ _ function z) in H by done.
      destruct (regular_grid fl _ _ _ _ _ _ _) as [[[xs ys] d]|]; [|done].
      rewrite prisms_loop_nil in H. injection H as <- _.
      apply lookup_insert_eq.
    + rewrite (from_prisms_random P _ _ _ _ _ _ _ _ _ _ function z) in H by done.
      cbn zeta in H. rewrite prisms_loop_nil in H. injection H as <- _.
      apply lookup_insert_eq.
  - intros fl grid field u grid' H.
    apply from_spheres_Ok_inv in H
      as (function & vx & vy & vz & gx & ys & zs
          & Hf & Hx & Hy & Hz & Hgx & Hys & Hzs & -> & ->).
    rewrite lookup_insert_eq. unfold sphere_value, Numpy.to_pyval.
    cbn [Numpy.type Numpy.items].
    rewrite accumulated_with_nil by apply zip3_length_le.
    apply asarray_Ok in Hgx as [[-> ->]|(a & -> & Hitems & ->)].
    + left. by eexists.
    + right. exists a. split; [done|].
      rewrite Hitems, length_fmap, fmap_replicate. reflexivity.
Qed.


(** C7.  In the dictionary that [from_prisms] returns, ['z'] is the
    negated height: an array of [nx*ny] entries, all equal to [-h] when
    the height is a number [h], and equal to [-hs[i]] at each [i] when it
    is an array [hs] of length [nx*ny]. *)
Theorem from_prisms_z_is_minus_height prisms x1 x2 y1 y2 nx ny height field
    grid g data g' :
  from_prisms ideal P prisms x1 x2 y1 y2 nx ny height field grid g = (Ok data, g') →
  match height with
  | Scalar h =>
      ∃ zs, data !! "z" = Some (VArr zs)
            ∧ length zs = Z.to_nat (nx * ny)
            ∧ ∀ i, (i < Z.to_nat (nx * ny))%nat → zs !! i = Some (- h)
  | Array hs =>
      Z.of_nat (length hs) = (nx * ny)%Z →
      ∃ zs, data !! "z" = Some (VArr zs)
            ∧ length zs = Z.to_nat (nx * ny)
            ∧ ∀ i h, hs !! i = Some h → zs !! i = Some (- h)
  end.
Proof.
  intros H.
  destruct (from_prisms_Ok_inv P _ _ _ _ _ _ _ _ _ _ _ _ _ _ H)
    as (Hgrid & Hn & function & z & Hf & Hz).
  assert (data !! "z" = Some (VArr z)) as Hdata.
  { destruct Hgrid as [-> | ->].
    - rewrite (from_prisms_regular P _ _ _ _ _ _ _ _ _ _ function z) in H by done.
      destruct (regular_grid ideal _ _ _ _ _ _ _) as [[[xs ys] d]|] eqn:Hr; [|done].
      apply regular_grid_data in Hr as ->.
      destruct (prisms_loop ideal _ _ _ _ _ _); [|done]. by injection H as <- _.
    - rewrite (from_prisms_random P _ _ _ _ _ _ _ _ _ _ function z) in H by done.
      cbn zeta in H.
      destruct (prisms_loop ideal _ _ _ _ _ _); [|done]. by injection H as <- _. }
  destruct height as [h|hs].
  - rewrite multiply_neg_scalar in Hz. injection Hz as <-.
    eexists. split; [done|]. split; [by rewrite length_replicate|].
    intros i Hi. by apply lookup_replicate_2.
  - intros Hlen. rewrite multiply_neg_array in Hz by lia.
    injection Hz as <-.
    eexists. split; [done|]. split; [rewrite length_fmap; lia|].
    intros i h Hi. by rewrite list_lookup_fmap, Hi.
Qed.


(** C10, amended.  A call on a regular grid with [nx = 1] never returns;
    with a supported field name, [ny >= 0] and a height that is a number
    or an array of length [nx*ny] it raises [ZeroDivisionError] from the
    step computation, before any point is generated. *)
Theorem from_prisms_regular_nx_1 fl prisms x1 x2 y1 y2 ny height field g :
  (∀ data g',
     from_prisms fl P prisms x1 x2 y1 y2 1 ny height field "regular" g
     ≠ (Ok data, g'))
  ∧ (is_Some (prism_fields P !! field) →
     (0 ≤ ny)%Z →
     height_fits height (1 * ny) →
     from_prisms fl P prisms x1 x2 y1 y2 1 ny height field "regular" g
     = (Raise ZeroDivisionError, g)).
Proof.
  split.
  - intros data g' H.
    destruct (from_prisms_Ok_inv P _ _ _ _ _ _ _ _ _ _ _ _ _ _ H)
      as (_ & Hn & function & z & Hf & Hz).
    by rewrite (from_prisms_regular P _ _ _ _ _ _ _ _ _ _ function z) in H.
  - intros [function Hf] Hny Hfit.
    destruct (multiply_fits fl height (1 * ny)) as (z & Hz & _); [lia|done|].
    by rewrite (from_prisms_regular P _ _ _ _ _ _ _ _ _ _ function z)
      by (done || lia).
Qed.

(** C2, the behaviour of the code.  In random mode with [ny = 1] and
    [nx >= 2] the returned 'y' is the one-element list [[y1]], not
    [nx*ny] values, while 'x' has [nx] draws; the loop over the zipped
    coordinates therefore visits the first point only, and 'value' is
    zero at all later points whatever the prisms. *)
Theorem from_prisms_random_profile prisms x1 x2 y1 y2 nx h field function g :
  prism_fields P !! field = Some function →
  (2 ≤ nx)%Z →
  ∃ data,
    from_prisms ideal P prisms x1 x2 y1 y2 nx 1 (Scalar h) field "random" g
    = (Ok data, advance g (Z.to_nat nx))
    ∧ data !! "x" = Some (VArr (draws ideal x1 x2 g (Z.to_nat nx)))
    ∧ length (draws ideal x1 x2 g (Z.to_nat nx)) = Z.to_nat nx
    ∧ data !! "y" = Some (VArr [y1])
    ∧ data !! "value"
      = Some (VArr
          (Qcsum ((λ p, prism_effect function p
                          (x1 + (x2 - x1) * Numpy.samples g (Numpy.consumed g),
                           y1, - h)) <$> prisms)
           :: replicate (Z.to_nat nx - 1) 0)).
Proof.
  intros Hf Hnx.
  rewrite (from_prisms_random P _ _ _ _ _ _ _ _ _ _ function
             (replicate (Z.to_nat (nx * 1)) (- h)))
    by (done || lia || apply multiply_neg_scalar).
  cbn zeta. rewrite (bool_decide_false (1 < 1)%Z) by lia.
  rewrite Z.mul_1_r.
  rewrite prisms_loop_zeros
    by (unfold draws; rewrite length_fmap, length_seq; lia).
  destruct (Z.to_nat nx) as [|n] eqn:Hn; [lia|].
  eexists. split; [reflexivity|].
  split; [done|]. split; [unfold draws; by rewrite length_fmap, length_seq|].
  split; [done|].
  rewrite lookup_insert_eq. do 2 f_equal.
  unfold accumulated, draws, zip3. cbn [seq fmap list_fmap replicate zip_with].
  rewrite zip_with_nil_r. cbn [zip_with fmap list_fmap length app].
  by rewrite Nat.add_0_r.
Qed.

End claims.

(** ** The claims at concrete inputs *)

Lemma from_prisms_invalid_grid_witness :
  "hexagonal" ≠ "regular" ∧ "hexagonal" ≠ "random"
  ∧ from_prisms binary64 Demo.P [Demo.cube] 0 1 0 1 2 2 (Scalar 0) "gz"
                "hexagonal" Demo.g
    = (Raise (AssertionError "Invalid grid type 'hexagonal'"), Demo.g).
Proof.
  split; [discriminate|]. split; [discriminate|].
  apply (from_prisms_invalid_grid Demo.P); discriminate.
Defined.

Lemma from_spheres_unsupported_field_witness :
  ¬ "gxy" ∈ sphere_field_names
  ∧ from_spheres binary64 Demo.Sp [Demo.ball] Demo.grid2 "gxy"
    = (Raise (AssertionError "Invalid gravity field 'gxy'"), Demo.grid2).
Proof.
  assert ("gxy" ∉ sphere_field_names) as Hfield
    by (apply (bool_decide_unpack _); vm_compute; exact I).
  split; [exact Hfield|].
  exact (proj1 (from_spheres_unsupported_field Demo.P Demo.Sp)
           binary64 [Demo.ball] Demo.grid2 "gxy" Hfield).
Defined.

(** Counterexample to C4 as stated: the empty grid lacks 'x', the field name is not
    supported, and the error is the invalid-field one, not a missing-key
    one. *)
Lemma from_spheres_missing_key_counterexample :
  (∅ : gmap string pyval) !! "x" = None
  ∧ from_spheres ideal Demo.Sp [Demo.ball] ∅ "gxy"
    = (Raise (AssertionError "Invalid gravity field 'gxy'"), ∅)
  ∧ ∀ k, (from_spheres ideal Demo.Sp [Demo.ball] ∅ "gxy").1
         ≠ Raise (AssertionError (missing_key k)).
Proof.
  split; [reflexivity|]. split; [reflexivity|].
  intros k H. discriminate H.
Defined.

Lemma from_spheres_missing_key_witness :
  let grid := delete "y" (delete "z" Demo.grid2) in
  grid !! "y" = None ∧ grid !! "z" = None
  ∧ from_spheres ideal Demo.Sp [Demo.ball] grid "gz"
    = (Raise (AssertionError "Invalid grid. Missing 'y' key."), grid).
Proof.
  intros grid.
  assert (grid !! "y" = None) as Hy by reflexivity.
  split; [exact Hy|]. split; [reflexivity|].
  exact (proj1 (proj1 (from_spheres_missing_key Demo.Sp ideal [Demo.ball]
                         grid "gz")
                  (or_intror (or_introl Hy)))).
Defined.

(** Counterexample to C9 as stated: on a grid of integers a sphere that
    contributes 1/2 at each point leaves 0 there, not the sum. *)
Lemma from_spheres_frame_counterexample :
  from_spheres ideal Demo.Sp [Demo.half] Demo.igrid "gz"
  = (Ok tt, <["value" := VIntArr [0; 0]%Z]> Demo.igrid)
  ∧ Qcsum ((λ s, sphere_effect Demo.sphere_f s (0, 0, 0)) <$> [Demo.half])
    = 1 / Qc_of_Z 2
  ∧ (1 / Qc_of_Z 2 : Qc) ≠ 0.
Proof.
  split; [vm_compute; reflexivity|]. split; [|discriminate].
  apply Qc_is_canon. reflexivity.
Defined.


Lemma empty_model_zero_witness :
  match (from_prisms ideal Demo.P [] 0 Demo.ten 0 Demo.ten 2 2 (Scalar 0)
                     "gz" "regular" Demo.g).1,
        from_spheres ideal Demo.Sp [] Demo.igrid "gz"
  with
  | Ok data, (Ok _, grid') =>
      data !! "value" = Some (VArr (replicate (Z.to_nat (2 * 2)) 0))
      ∧ grid' !! "value" = Some (VIntArr [0; 0]%Z)
  | _, _ => False
  end.
Proof.
  destruct (from_prisms ideal Demo.P [] 0 Demo.ten 0 Demo.ten 2 2 (Scalar 0)
                        "gz" "regular" Demo.g) as [[data|e] g'] eqn:Hp;
    [|apply (f_equal fst) in Hp; discriminate Hp].
  destruct (from_spheres ideal Demo.Sp [] Demo.igrid "gz") as [[u|e] grid']
    eqn:Hs; [|apply (f_equal fst) in Hs; discriminate Hs].
  split.
  - exact (proj1 (empty_model_zero Demo.P Demo.Sp)
             _ _ _ _ _ _ _ _ _ _ _ _ _ Hp).
  - destruct (proj2 (empty_model_zero Demo.P Demo.Sp) _ _ _ _ _ Hs)
      as [(xs & Hx & _)|(xs & Hx & Hv)]; [discriminate Hx|].
    injection Hx as <-. exact Hv.
Defined.

(** Counterexample to C6 as stated: on a grid of integers two spheres
    that contribute 3/2 and -3/5 leave 0 in one order and 1 in the
    other. *)
Lemma accumulation_permutation_counterexample :
  [Demo.up; Demo.down] ≡ₚ [Demo.down; Demo.up]
  ∧ from_spheres ideal Demo.Sp [Demo.up; Demo.down] Demo.igrid "gz"
    = (Ok tt, <["value" := VIntArr [0; 0]%Z]> Demo.igrid)
  ∧ from_spheres ideal Demo.Sp [Demo.down; Demo.up] Demo.igrid "gz"
    = (Ok tt, <["value" := VIntArr [1; 1]%Z]> Demo.igrid)
  ∧ from_spheres ideal Demo.Sp [Demo.up; Demo.down] Demo.igrid "gz"
    ≠ from_spheres ideal Demo.Sp [Demo.down; Demo.up] Demo.igrid "gz".
Proof.
  split; [apply perm_swap|].
  assert (from_spheres ideal Demo.Sp [Demo.up; Demo.down] Demo.igrid "gz"
          = (Ok tt, <["value" := VIntArr [0; 0]%Z]> Demo.igrid)) as H1
    by (vm_compute; reflexivity).
  assert (from_spheres ideal Demo.Sp [Demo.down; Demo.up] Demo.igrid "gz"
          = (Ok tt, <["value" := VIntArr [1; 1]%Z]> Demo.igrid)) as H2
    by (vm_compute; reflexivity).
  split; [exact H1|]. split; [exact H2|].
  rewrite H1, H2. intros H.
  apply (f_equal (λ r, r.2 !! "value")) in H. cbn beta iota delta [snd] in H.
  rewrite !lookup_insert_eq in H. discriminate H.
Defined.


Lemma from_prisms_z_is_minus_height_witness :
  match (from_prisms ideal Demo.P [Demo.cube] 0 Demo.ten 0 Demo.ten 2 2
                     (Scalar (1 + 1)) "gz" "regular" Demo.g).1
  with
  | Ok data =>
      ∃ zs, data !! "z" = Some (VArr zs)
            ∧ length zs = Z.to_nat (2 * 2)
            ∧ ∀ i, (i < Z.to_nat (2 * 2))%nat → zs !! i = Some (- (1 + 1))
  | Raise _ => False
  end.
Proof.
  destruct (from_prisms ideal Demo.P [Demo.cube] 0 Demo.ten 0 Demo.ten
                        2 2 (Scalar (1 + 1)) "gz" "regular" Demo.g)
    as [[data|e] g'] eqn:Hr; [|apply (f_equal fst) in Hr; discriminate Hr].
  exact (from_prisms_z_is_minus_height Demo.P _ _ _ _ _ _ _ _ _ _ _ _ _ Hr).
Defined.



(** Counterexample to C10 as stated: with an unsupported field name the call with
    [nx = 1] fails the field assertion and never reaches the division. *)
Lemma from_prisms_regular_nx_1_counterexample :
  from_prisms ideal Demo.P [Demo.cube] 0 1 0 1 1 2 (Scalar 0) "gq" "regular"
              Demo.g
  = (Raise (AssertionError "Invalid gravity field 'gq'"), Demo.g)
  ∧ from_prisms ideal Demo.P [Demo.cube] 0 1 0 1 1 2 (Scalar 0) "gq" "regular"
                Demo.g
    ≠ (Raise ZeroDivisionError, Demo.g).
Proof.
  split; [reflexivity|]. intros H. apply (f_equal fst) in H. discriminate H.
Defined.

Lemma from_prisms_regular_nx_1_witness :
  is_Some (prism_fields Demo.P !! "gz")
  ∧ (0 ≤ 2)%Z
  ∧ height_fits (Scalar 0) (1 * 2)
  ∧ from_prisms binary64 Demo.P [Demo.cube] 0 1 0 1 1 2 (Scalar 0) "gz"
                "regular" Demo.g
    = (Raise ZeroDivisionError, Demo.g).
Proof.
  assert (is_Some (prism_fields Demo.P !! "gz")) as Hfield
    by (eexists; reflexivity).
  split; [exact Hfield|]. split; [lia|]. split; [exact I|].
  exact (proj2 (from_prisms_regular_nx_1 Demo.P binary64 [Demo.cube] 0 1 0 1 2
                  (Scalar 0) "gz" Demo.g)
           Hfield ltac:(lia) I).
Defined.

Lemma from_prisms_random_profile_witness :
  prism_fields Demo.P !! "gz" = Some Demo.prism_f
  ∧ (2 ≤ 3)%Z
  ∧ ∃ data v,
      from_prisms ideal Demo.P [Demo.cube] 0 1 0 0 3 1 (Scalar 0) "gz" "random"
                  Demo.g
      = (Ok data, advance Demo.g 3)
      ∧ data !! "y" = Some (VArr [0])
      ∧ data !! "value" = Some (VArr [v; 0; 0]).
Proof.
  assert (prism_fields Demo.P !! "gz" = Some Demo.prism_f) as Hf
    by reflexivity.
  split; [exact Hf|]. split; [lia|].
  destruct (from_prisms_random_profile Demo.P [Demo.cube] 0 1 0 0 3 0
              "gz" Demo.prism_f Demo.g Hf ltac:(lia))
    as (data & Hcall & _ & _ & Hy & Hv).
  exists data. eexists. split; [exact Hcall|]. split; [exact Hy|]. exact Hv.
Defined.

(** * Further properties of [from_prisms] and [from_spheres] *)

(** ** The grid for any counts *)

Lemma step_nonzero (a b : Qc) (n : Z) :
  n ≠ 1%Z → a ≠ b → (b - a) / Qc_of_Z (n - 1) ≠ 0.
Proof.
  intros Hn Hab H. apply (Qcminus_neq_0 a b Hab).
  assert (Qc_of_Z (n - 1) ≠ 0) as Hk by (apply Qc_of_Z_neq_0; lia).
  transitivity ((b - a) / Qc_of_Z (n - 1) * Qc_of_Z (n - 1)).
  - by field.
  - rewrite H. ring.
Qed.

(** [arange] over a region whose limits differ: [n - 1] values, none for
    [n <= 0]. *)
Lemma arange_steps (a b : Qc) (n : Z) :
  n ≠ 1%Z → a ≠ b →
  Numpy.arange ideal a b ((b - a) / Qc_of_Z (n - 1))
  = Ok ((λ i : nat, a + Qc_of_Z (Z.of_nat i) * ((b - a) / Qc_of_Z (n - 1)))
          <$> seq 0 (Z.to_nat (n - 1))).
Proof.
  intros Hn Hab. rewrite arange_ideal by (by apply step_nonzero).
  assert (Qc_of_Z (n - 1) ≠ 0) as Hk by (apply Qc_of_Z_neq_0; lia).
  pose proof (Qcminus_neq_0 a b Hab) as Hd.
  cbn zeta.
  replace ((b - a) / ((b - a) / Qc_of_Z (n - 1))) with (Qc_of_Z (n - 1))
    by (by field).
  cbn [this Qc_of_Z]. by rewrite Qceiling_Z.
Qed.

Lemma arange_then_append (a b : Qc) (n : Z) (r : list Qc) :
  n ≠ 1%Z → a ≠ b →
  Numpy.arange ideal a b ((b - a) / Qc_of_Z (n - 1)) = Ok r →
  (if bool_decide (Z.of_nat (length r) < n)%Z then Numpy.append r b else r)
  = axis a b n.
Proof.
  intros Hn Hab Hr.
  destruct (Z.le_gt_cases 2 n) as [H2|H2]; [by apply arange_append|].
  rewrite arange_steps in Hr by done. injection Hr as <-.
  rewrite length_fmap, length_seq.
  rewrite bool_decide_false by lia.
  unfold axis. by replace (Z.to_nat (n - 1)) with (Z.to_nat n) by lia.
Qed.

Section more_lemmas.
Context (P : grav_prism) (Sp : grav_sphere).

(** [regular_grid] whenever it can be built. *)
Lemma regular_grid_built (x1 x2 y1 y2 : Qc) (nx ny : Z) (data : gmap string pyval) :
nx ≠ 1%Z → x1 ≠ x2 → ((1 < ny)%Z → y1 ≠ y2) →
regular_grid ideal x1 x2 y1 y2 nx ny data
= Ok (rows y1 y2 ny ≫= (λ _, axis x1 x2 nx),
      rows y1 y2 ny ≫= (λ y, replicate (Z.to_nat nx) y),
      <["ny" := VInt ny]>
        (<["nx" := VInt nx]> (<["grid" := VBool true]> data))).
Proof.
intros Hnx Hx Hy. unfold regular_grid, py_truediv, rows.
rewrite !ideal_eq.
rewrite (bool_decide_false (nx - 1 = 0)%Z) by lia.
pose proof (arange_steps x1 x2 nx Hnx Hx) as Hax.
rewrite result_bind_Ok, Hax, result_bind_Ok.
rewrite (arange_then_append x1 x2 nx _ Hnx Hx Hax).
case_bool_decide as Hny.
- rewrite (bool_decide_false (ny - 1 = 0)%Z) by lia.
  pose proof (arange_steps y1 y2 ny ltac:(lia) (Hy Hny)) as Hay.
  rewrite result_bind_Ok, Hay, result_bind_Ok.
  rewrite (arange_then_append y1 y2 ny _ ltac:(lia) (Hy Hny) Hay).
  rewrite regular_points_eq, axis_length. reflexivity.
- rewrite result_bind_Ok.
  rewrite (bool_decide_false (Z.of_nat (length [y1]) < ny)%Z) by (simpl; lia).
  rewrite regular_points_eq, axis_length. reflexivity.
Qed.

(** What [regular_grid] needs. *)
Lemma regular_grid_needs x1 x2 y1 y2 nx ny data r :
regular_grid ideal x1 x2 y1 y2 nx ny data = Ok r →
nx ≠ 1%Z ∧ x1 ≠ x2 ∧ ((1 < ny)%Z → y1 ≠ y2).
Proof.
unfold regular_grid, py_truediv. rewrite !ideal_eq. intros H.
destruct (decide (nx - 1 = 0)%Z) as [Hnx|Hnx].
{ by rewrite (bool_decide_true (nx - 1 = 0)%Z), result_bind_Raise in H. }
rewrite (bool_decide_false (nx - 1 = 0)%Z), result_bind_Ok in H by done.
assert (nx ≠ 1%Z) as Hnx' by lia. split; [done|].
destruct (decide (x1 = x2)) as [->|Hx].
{ by rewrite arange_degenerate, result_bind_Raise in H. }
split; [done|]. intros Hny ->.
rewrite (arange_steps x1 x2 nx) in H by done.
rewrite result_bind_Ok in H.
rewrite (bool_decide_true (1 < ny)%Z) in H by done.
rewrite (bool_decide_false (ny - 1 = 0)%Z) in H by lia.
rewrite result_bind_Ok in H.
by rewrite arange_degenerate, !result_bind_Raise in H.
Qed.

(** ** The loop stays inside [value] *)

Lemma regular_points_bound x1 x2 y1 y2 nx ny (z : list Qc) (n : nat) :
nx ≠ 1%Z → n = Z.to_nat (nx * ny) →
(n ≠ 1%nat → length z = n) →
(length (zip3 (rows y1 y2 ny ≫= (λ _, axis x1 x2 nx))
              (rows y1 y2 ny ≫= (λ y, replicate (Z.to_nat nx) y)) z) ≤ n)%nat.
Proof.
intros Hnx -> Hz.
destruct (decide (Z.to_nat (nx * ny) = 1%nat)) as [H1|H1].
- etrans; [apply (proj1 (zip3_length_le _ _ _))|].
  rewrite bind_const_length, axis_length.
  assert (nx * ny = 1)%Z as Hmul by lia.
  destruct (Z.mul_eq_1 nx ny Hmul) as [?| ->]; [done|].
  simpl. lia.
- etrans; [apply (proj2 (zip3_length_le _ _ _))|]. by rewrite Hz.
Qed.

(** ** The outcome of [from_prisms] in each mode *)

Lemma from_prisms_regular_built prisms x1 x2 y1 y2 nx ny height field function z g :
prism_fields P !! field = Some function →
(0 ≤ nx * ny)%Z →
Numpy.multiply ideal (neg height) (replicate (Z.to_nat (nx * ny)) 1) = Ok z →
nx ≠ 1%Z → x1 ≠ x2 → ((1 < ny)%Z → y1 ≠ y2) →
let xs := rows y1 y2 ny ≫= (λ _, axis x1 x2 nx) in
let ys := rows y1 y2 ny ≫= (λ y, replicate (Z.to_nat nx) y) in
from_prisms ideal P prisms x1 x2 y1 y2 nx ny height field "regular" g
= (Ok (<["value" := VArr (accumulated (prism_effect function) prisms
                            (zip3 xs ys z) (Z.to_nat (nx * ny)))]>
         (<["y" := VArr ys]>
            (<["x" := VArr xs]> (regular_data z nx ny)))), g).
Proof.
intros Hf Hn Hz Hnx Hx Hy xs ys.
rewrite (from_prisms_regular _ _ _ _ _ _ _ _ _ _ _ function z) by done.
rewrite regular_grid_built by done. fold xs ys.
unfold prisms_loop. rewrite for_enumerate_zeros; [done|].
apply regular_points_bound; [done..|].
intros H1. by eapply multiply_ones_length.
Qed.

Lemma from_prisms_random_built prisms x1 x2 y1 y2 nx ny height field function z g :
prism_fields P !! field = Some function →
(0 ≤ nx * ny)%Z →
Numpy.multiply ideal (neg height) (replicate (Z.to_nat (nx * ny)) 1) = Ok z →
let n := Z.to_nat (nx * ny) in
let xs := draws ideal x1 x2 g n in
let ys := if bool_decide (1 < ny)%Z then draws ideal y1 y2 (advance g n) n
          else [y1] in
let g' := if bool_decide (1 < ny)%Z then advance (advance g n) n
          else advance g n in
from_prisms ideal P prisms x1 x2 y1 y2 nx ny height field "random" g
= (Ok (<["value" := VArr (accumulated (prism_effect function) prisms
                            (zip3 xs ys z) n)]>
         (<["y" := VArr ys]> (<["x" := VArr xs]> (random_data z n)))), g').
Proof.
intros Hf Hn Hz n xs ys g'.
rewrite (from_prisms_random _ _ _ _ _ _ _ _ _ _ _ function z) by done.
cbn zeta. fold n xs ys g'.
rewrite prisms_loop_zeros; [done|].
unfold xs. by rewrite draws_length.
Qed.

Lemma regular_grid_fails x1 x2 y1 y2 nx ny data :
nx = 1%Z ∨ x1 = x2 ∨ ((1 < ny)%Z ∧ y1 = y2) →
regular_grid ideal x1 x2 y1 y2 nx ny data = Raise ZeroDivisionError.
Proof.
intros Hbad.
destruct (regular_grid ideal x1 x2 y1 y2 nx ny data) as [r|e] eqn:Hr.
- apply regular_grid_needs in Hr as (Hnx & Hx & Hy).
  destruct Hbad as [?|[?|[Hny ?]]]; [done..|]. by destruct (Hy Hny).
- by apply regular_grid_Raise in Hr as ->.
Qed.

(** [from_prisms] as a decision tree over its checks, in the order the code
  makes them. *)
Lemma from_prisms_cases prisms x1 x2 y1 y2 nx ny height field grid g :
from_prisms ideal P prisms x1 x2 y1 y2 nx ny height field grid g
= if bool_decide (grid ∈ ["regular"; "random"]) then
    match prism_fields P !! field with
    | None => (Raise (AssertionError (invalid_gravity_field field)), g)
    | Some function =>
        if bool_decide (nx * ny < 0)%Z then (Raise ValueError, g)
        else
          match Numpy.multiply ideal (neg height)
                               (replicate (Z.to_nat (nx * ny)) 1) with
          | Raise _ => (Raise ValueError, g)
          | Ok z =>
              if bool_decide (grid = "regular") then
                if bool_decide (nx = 1%Z ∨ x1 = x2 ∨ ((1 < ny)%Z ∧ y1 = y2))
                then (Raise ZeroDivisionError, g)
                else (Ok (regular_result function prisms x1 x2 y1 y2 nx ny z),
                      g)
              else
                (Ok (random_result function prisms x1 x2 y1 y2 nx ny z g),
                 random_after ny (Z.to_nat (nx * ny)) g)
          end
    end
  else (Raise (AssertionError (invalid_grid_type grid)), g).
Proof.
case_bool_decide as Hg.
2:{ unfold from_prisms.
    by rewrite (bool_decide_false (grid ∈ _)), py_assert_false by done. }
destruct (prism_fields P !! field) as [function|] eqn:Hf.
2:{ unfold from_prisms.
    rewrite (bool_decide_true (grid ∈ _)), py_assert_true by done.
    cbn beta zeta.
    by rewrite (bool_decide_false (is_Some _)), py_assert_false
      by (rewrite Hf; by intros [??]). }
case_bool_decide as Hn.
{ unfold from_prisms.
  rewrite (bool_decide_true (grid ∈ _)), py_assert_true by done.
  cbn beta zeta.
  rewrite (bool_decide_true (is_Some _)), py_assert_true by (by rewrite Hf).
  cbn beta. unfold Numpy.ones.
  by rewrite full_Raise, M_bind_lift_Raise by done. }
destruct (Numpy.multiply ideal _ _) as [z|e] eqn:Hz.
2:{ unfold from_prisms.
    rewrite (bool_decide_true (grid ∈ _)), py_assert_true by done.
    cbn beta zeta.
    rewrite (bool_decide_true (is_Some _)), py_assert_true by (by rewrite Hf).
    cbn beta. unfold Numpy.ones.
    rewrite full_Ok, M_bind_lift_Ok by lia. cbn beta.
    rewrite Hz, M_bind_lift_Raise.
    by apply multiply_Raise in Hz as ->. }
apply elem_of_cons in Hg as [->|Hg].
- rewrite (bool_decide_true ("regular" = "regular")) by done.
  case_bool_decide as Hbad.
  + rewrite (from_prisms_regular _ _ _ _ _ _ _ _ _ _ _ function z)
      by (done || lia).
    by rewrite regular_grid_fails.
  + apply from_prisms_regular_built; [done|lia|done|..].
    * intros ->. apply Hbad. by left.
    * intros ->. apply Hbad. right. by left.
    * intros Hny ->. apply Hbad. right. by right.
- apply elem_of_cons in Hg as [->|Hg]; [|by apply elem_of_nil in Hg].
  rewrite (bool_decide_false ("random" = "regular")) by done.
  apply from_prisms_random_built; done || lia.
Qed.

(** ** Sums over two lists of bodies *)

Lemma Qcsum_app (l1 l2 : list Qc) : Qcsum (l1 ++ l2) = Qcsum l1 + Qcsum l2.
Proof.
induction l1 as [|c l1 IH]; simpl.
- by rewrite Qcplus_0_l.
- rewrite IH. ring.
Qed.

Lemma add_arrays_zeros (k : nat) :
add_arrays (replicate k 0) (replicate k 0) = replicate k 0.
Proof.
unfold add_arrays. induction k as [|k IH]; simpl; [done|].
by rewrite IH, Qcplus_0_l.
Qed.

Lemma accumulated_app {B T} (c : B → T → Qc) (b1 b2 : list B) (pts : list T)
  (n : nat) :
accumulated c (b1 ++ b2) pts n
= add_arrays (accumulated c b1 pts n) (accumulated c b2 pts n).
Proof.
unfold accumulated, add_arrays.
rewrite zip_with_app by (by rewrite !length_fmap).
fold (add_arrays (replicate (n - length pts) 0) (replicate (n - length pts) 0)).
rewrite add_arrays_zeros. f_equal.
rewrite zip_with_fmap_l, zip_with_fmap_r, zip_with_diag.
apply list_fmap_ext. intros _ pt _. by rewrite fmap_app, Qcsum_app.
Qed.

Lemma accumulated_lookup_zero {B T} (c : B → T → Qc) (bodies : list B)
  (pts : list T) (n i : nat) :
(length pts ≤ i)%nat → (i < n)%nat →
accumulated c bodies pts n !! i = Some 0.
Proof.
intros Hi Hn. unfold accumulated.
rewrite lookup_app_r by (by rewrite length_fmap).
rewrite length_fmap. apply lookup_replicate_2. lia.
Qed.

(** The arrays of a returned dictionary. *)
Lemma regular_result_lookup function prisms x1 x2 y1 y2 nx ny z :
let data := regular_result function prisms x1 x2 y1 y2 nx ny z in
data !! "x" = Some (VArr (rows y1 y2 ny ≫= (λ _, axis x1 x2 nx)))
∧ data !! "y" = Some (VArr (rows y1 y2 ny ≫= (λ y, replicate (Z.to_nat nx) y)))
∧ data !! "z" = Some (VArr z)
∧ data !! "error" = Some (VArr (replicate (Z.to_nat (nx * ny)) 0))
∧ data !! "grid" = Some (VBool true)
∧ data !! "nx" = Some (VInt nx) ∧ data !! "ny" = Some (VInt ny)
∧ dom data = data_keys "regular".
Proof.
cbn zeta. unfold regular_result, regular_data, initial_data.
do 7 (split; [done|]).
rewrite !dom_insert_L, dom_singleton_L.
unfold data_keys. rewrite bool_decide_true by done. simpl. set_solver.
Qed.

Lemma random_result_lookup function prisms x1 x2 y1 y2 nx ny z g :
let data := random_result function prisms x1 x2 y1 y2 nx ny z g in
let n := Z.to_nat (nx * ny) in
data !! "x" = Some (VArr (random_xs x1 x2 n g))
∧ data !! "y" = Some (VArr (random_ys y1 y2 ny n g))
∧ data !! "z" = Some (VArr z)
∧ data !! "error" = Some (VArr (replicate n 0))
∧ data !! "grid" = Some (VBool false)
∧ dom data = data_keys "random".
Proof.
cbn zeta. unfold random_result, random_data, initial_data.
do 5 (split; [done|]).
rewrite !dom_insert_L, dom_singleton_L.
unfold data_keys. rewrite bool_decide_false by done. simpl. set_solver.
Qed.

End more_lemmas.

Section extras.
Context (P : grav_prism) (Sp : grav_sphere).

(** X1.  With a valid grid type, a field name outside the seven of
  [from_prisms] fails the second assertion: the call raises the
  invalid-field [AssertionError] for all other arguments, and no random
  sample is drawn. *)
Theorem from_prisms_invalid_field fl prisms x1 x2 y1 y2 nx ny height field grid g :
grid ∈ ["regular"; "random"] →
field ∉ prism_field_names →
from_prisms fl P prisms x1 x2 y1 y2 nx ny height field grid g
= (Raise (AssertionError (invalid_gravity_field field)), g).
Proof.
intros Hgrid Hfield. rewrite from_prisms_tree.
rewrite bool_decide_true by done.
destruct (prism_fields P !! field) eqn:Hf; [|done].
destruct Hfield. apply (proj1 (prism_fields_keys P field)). by rewrite Hf.
Qed.


(** X3.  The dictionary that [from_prisms] returns has exactly the keys x,
  y, z, value, error and grid, and on a regular grid also nx and ny;
  ['grid'] tells whether the grid is regular, ['nx'] and ['ny'] hold the
  counts, and ['error'] is [nx*ny] zeros. *)
Theorem from_prisms_returned_keys prisms x1 x2 y1 y2 nx ny height field grid g
  data g' :
from_prisms ideal P prisms x1 x2 y1 y2 nx ny height field grid g = (Ok data, g') →
dom data = data_keys grid
∧ data !! "grid" = Some (VBool (bool_decide (grid = "regular")))
∧ data !! "error" = Some (VArr (replicate (Z.to_nat (nx * ny)) 0))
∧ (grid = "regular" →
   data !! "nx" = Some (VInt nx) ∧ data !! "ny" = Some (VInt ny))
∧ (grid ≠ "regular" → data !! "nx" = None ∧ data !! "ny" = None).
Proof.
rewrite from_prisms_cases. intros H.
case_bool_decide as Hgrid; [|done].
destruct (prism_fields P !! field) as [function|]; [|done].
case_bool_decide as Hn; [done|].
destruct (Numpy.multiply ideal _ _) as [z|]; [|done].
case_bool_decide as Hreg.
- subst grid. case_bool_decide; [done|]. injection H as <- _.
  destruct (regular_result_lookup function prisms x1 x2 y1 y2 nx ny z)
    as (_ & _ & _ & Herr & Hg & Hnx & Hny & Hdom).
  by repeat split.
- injection H as <- _.
  destruct (random_result_lookup function prisms x1 x2 y1 y2 nx ny z g)
    as (_ & _ & _ & Herr & Hg & Hdom).
  unfold data_keys in *. rewrite (bool_decide_false (grid = "regular")) by done.
  rewrite (bool_decide_false ("random" = "regular")) in Hdom by done.
  split; [done|]. split; [done|]. split; [done|]. split; [done|].
  intros _.
  split; apply not_elem_of_dom; rewrite Hdom;
    apply (bool_decide_unpack _); by vm_compute.
Qed.

(** X4.  In the dictionary that [from_prisms] returns, ['value'] has
  [nx*ny] entries; at each index where 'x', 'y' and 'z' all have an entry
  it is the sum over the prisms of the formula at that point, and at an
  index where one of them has none it is zero. *)
Theorem from_prisms_value prisms x1 x2 y1 y2 nx ny height field grid g data g' :
from_prisms ideal P prisms x1 x2 y1 y2 nx ny height field grid g = (Ok data, g') →
∃ function xs ys zs value,
  prism_fields P !! field = Some function
  ∧ data !! "x" = Some (VArr xs) ∧ data !! "y" = Some (VArr ys)
  ∧ data !! "z" = Some (VArr zs) ∧ data !! "value" = Some (VArr value)
  ∧ length value = Z.to_nat (nx * ny)
  ∧ (∀ i x y z,
       xs !! i = Some x → ys !! i = Some y → zs !! i = Some z →
       value !! i
       = Some (Qcsum ((λ p, prism_effect function p (x, y, z)) <$> prisms)))
  ∧ (∀ i, (i < Z.to_nat (nx * ny))%nat →
          xs !! i = None ∨ ys !! i = None ∨ zs !! i = None →
          value !! i = Some 0).
Proof.
rewrite from_prisms_cases. intros H.
case_bool_decide as Hgrid; [|done].
destruct (prism_fields P !! field) as [function|]; [|done].
case_bool_decide as Hn; [done|].
destruct (Numpy.multiply ideal _ _) as [z|] eqn:Hz; [|done].
assert (∀ xs ys,
  (length (zip3 xs ys z) ≤ Z.to_nat (nx * ny))%nat →
  let value := accumulated (prism_effect function) prisms (zip3 xs ys z)
                           (Z.to_nat (nx * ny)) in
  length value = Z.to_nat (nx * ny)
  ∧ (∀ i x y z',
       xs !! i = Some x → ys !! i = Some y → z !! i = Some z' →
       value !! i
       = Some (Qcsum ((λ p, prism_effect function p (x, y, z')) <$> prisms)))
  ∧ (∀ i, (i < Z.to_nat (nx * ny))%nat →
          xs !! i = None ∨ ys !! i = None ∨ z !! i = None →
          value !! i = Some 0)) as Hvalue.
{ intros xs ys Hle value. split; [by apply accumulated_length|]. split.
  - intros i x y z' Hx Hy Hz'.
    apply (accumulated_lookup (prism_effect function)). by apply zip3_lookup.
  - intros i Hi Hnone. apply accumulated_lookup_zero; [|done].
    by apply zip3_lookup_None. }
case_bool_decide as Hreg.
- subst grid. case_bool_decide as Hbad; [done|]. injection H as <- _.
  destruct (regular_result_lookup function prisms x1 x2 y1 y2 nx ny z)
    as (Hx & Hy & Hzz & _).
  eexists function, _, _, z, _.
  split; [done|]. split; [exact Hx|]. split; [exact Hy|].
  split; [exact Hzz|]. split; [apply lookup_insert_eq|].
  apply Hvalue. apply regular_points_bound; [|done|].
  + intros ->. apply Hbad. by left.
  + intros H1. by eapply multiply_ones_length.
- injection H as <- _.
  destruct (random_result_lookup function prisms x1 x2 y1 y2 nx ny z g)
    as (Hx & Hy & Hzz & _).
  eexists function, _, _, z, _.
  split; [done|]. split; [exact Hx|]. split; [exact Hy|].
  split; [exact Hzz|]. split; [apply lookup_insert_eq|].
  apply Hvalue.
  etrans; [apply (proj1 (zip3_length_le _ _ _))|].
  unfold random_xs. by rewrite draws_length.
Qed.



(** X7.  A region without extent.  For any rounding that keeps zero, on a
  regular grid with a supported field name, [nx*ny >= 0] and a height
  numpy can multiply with [nx*ny] ones, [x1 = x2], or [y1 = y2] with
  [ny > 1], makes the step zero: the call raises [ZeroDivisionError]
  (from the division when [nx = 1], else from [numpy.arange]) and draws
  no sample. *)
Theorem from_prisms_zero_extent fl prisms x1 x2 y1 y2 nx ny height field g :
fl 0 = 0 →
is_Some (prism_fields P !! field) →
(0 ≤ nx * ny)%Z →
height_broadcasts height (Z.to_nat (nx * ny)) →
x1 = x2 ∨ ((1 < ny)%Z ∧ y1 = y2) →
from_prisms fl P prisms x1 x2 y1 y2 nx ny height field "regular" g
= (Raise ZeroDivisionError, g).
Proof.
intros H0 [function Hf] Hn Hb Hflat. rewrite from_prisms_tree, Hf.
rewrite (bool_decide_true (_ ∈ _)) by (by repeat constructor).
rewrite (bool_decide_false (nx * ny < 0)%Z) by lia. cbn zeta.
destruct (multiply_broadcasts fl _ _ Hb) as [z ->].
rewrite (bool_decide_true ("regular" = "regular")) by done.
rewrite (bool_decide_true (_ ∨ _)); [done|].
destruct Hflat as [->|[Hny ->]].
- right. left. by apply step_degenerate.
- right. right. split; [done|]. by apply step_degenerate.
Qed.

(** X8.  With valid grid type and field name, a negative [nx*ny], or a
  height array whose length is neither [nx*ny] nor 1 (when [nx*ny] is not
  1), makes the call raise [ValueError] before any point is generated. *)
Theorem from_prisms_shape_error fl prisms x1 x2 y1 y2 nx ny height field grid g :
grid ∈ ["regular"; "random"] →
is_Some (prism_fields P !! field) →
(nx * ny < 0)%Z
∨ (∃ hs, height = Array hs
         ∧ length hs ≠ Z.to_nat (nx * ny) ∧ length hs ≠ 1%nat
         ∧ Z.to_nat (nx * ny) ≠ 1%nat) →
from_prisms fl P prisms x1 x2 y1 y2 nx ny height field grid g
= (Raise ValueError, g).
Proof.
intros Hgrid [function Hf] Hshape. rewrite from_prisms_tree, Hf.
rewrite bool_decide_true by done.
case_bool_decide as Hn; [done|]. cbn zeta.
destruct Hshape as [?|(hs & -> & H1 & H2 & H3)]; [done|].
destruct (Numpy.multiply fl _ _) as [z|] eqn:Hz; [|done].
apply multiply_needs in Hz. simpl in Hz. by destruct Hz as [?|[?|?]].
Qed.

(** X9.  Superposition: if the calls for two lists of prisms return, the
  call for their concatenation returns the dictionary of the first with
  ['value'] replaced by the entry-wise sum of the two ['value'] arrays. *)
Theorem from_prisms_superposition prisms1 prisms2 x1 x2 y1 y2 nx ny height
  field grid g data1 data2 g1 g2 :
from_prisms ideal P prisms1 x1 x2 y1 y2 nx ny height field grid g = (Ok data1, g1) →
from_prisms ideal P prisms2 x1 x2 y1 y2 nx ny height field grid g = (Ok data2, g2) →
∃ value1 value2,
  data1 !! "value" = Some (VArr value1)
  ∧ data2 !! "value" = Some (VArr value2)
  ∧ length value1 = length value2
  ∧ from_prisms ideal P (prisms1 ++ prisms2) x1 x2 y1 y2 nx ny height field grid g
    = (Ok (<["value" := VArr (add_arrays value1 value2)]> data1), g1).
Proof.
rewrite !from_prisms_cases. intros H1 H2.
case_bool_decide as Hgrid; [|done].
destruct (prism_fields P !! field) as [function|]; [|done].
case_bool_decide as Hn; [done|].
destruct (Numpy.multiply ideal _ _) as [z|] eqn:Hz; [|done].
case_bool_decide as Hreg.
- case_bool_decide as Hbad; [done|].
  injection H1 as <- <-. injection H2 as <- _.
  unfold regular_result. eexists _, _.
  split; [apply lookup_insert_eq|]. split; [apply lookup_insert_eq|].
  split.
  { assert (nx ≠ 1%Z) as Hnx by (intros ->; apply Hbad; by left).
    assert (Z.to_nat (nx * ny) ≠ 1%nat → length z = Z.to_nat (nx * ny))
      as Hzlen by (intros ?; by eapply multiply_ones_length).
    by rewrite !accumulated_length by (by apply regular_points_bound). }
  by rewrite insert_insert_eq, accumulated_app.
- injection H1 as <- <-. injection H2 as <- _.
  unfold random_result. eexists _, _.
  split; [apply lookup_insert_eq|]. split; [apply lookup_insert_eq|].
  split.
  { assert (∀ ys, (length (zip3 (random_xs x1 x2 (Z.to_nat (nx * ny)) g) ys z)
                   ≤ Z.to_nat (nx * ny))%nat) as Hle.
    { intros ys. etrans; [apply (proj1 (zip3_length_le _ _ _))|].
      unfold random_xs. by rewrite draws_length. }
    by rewrite !accumulated_length by apply Hle. }
  by rewrite insert_insert_eq, accumulated_app.
Qed.


(** X11.  [from_spheres] reads the grid only at 'x', 'y' and 'z': on two
  grids that agree there, a call has the same outcome and, when it
  returns, stores the same ['value'] array in each. *)
Theorem from_spheres_reads_xyz fl spheres grid1 grid2 field :
grid1 !! "x" = grid2 !! "x" →
grid1 !! "y" = grid2 !! "y" →
grid1 !! "z" = grid2 !! "z" →
(from_spheres fl Sp spheres grid1 field).1
= (from_spheres fl Sp spheres grid2 field).1
∧ (∀ u grid1',
     from_spheres fl Sp spheres grid1 field = (Ok u, grid1') →
     ∃ value,
       grid1' = <["value" := value]> grid1
       ∧ from_spheres fl Sp spheres grid2 field
         = (Ok u, <["value" := value]> grid2)).
Proof.
intros Hx Hy Hz. rewrite !from_spheres_cases, Hx, Hy, Hz.
destruct (sphere_fields Sp !! field) as [function|]; [|done].
destruct (grid2 !! "x") as [vx|]; [|done].
destruct (grid2 !! "y") as [vy|]; [|done].
destruct (grid2 !! "z") as [vz|]; [|done].
destruct (Numpy.asarray vx) as [gx|]; [|done].
destruct (as_array vy) as [ys|]; [|done].
destruct (as_array vz) as [zs|]; [|done].
split; [done|]. intros u grid1' [= <- <-]. by eexists.
Qed.


(** X13.  Values do not accumulate from one call to the next: after a call
  that returned, any further call on the updated grid gives what it
  would have given on the original grid; in particular repeating a call
  changes nothing. *)
Theorem from_spheres_overwrites fl spheres1 spheres2 grid field1 field2 u1 grid1
  u2 grid2 :
from_spheres fl Sp spheres1 grid field1 = (Ok u1, grid1) →
from_spheres fl Sp spheres2 grid field2 = (Ok u2, grid2) →
from_spheres fl Sp spheres2 grid1 field2 = (Ok u2, grid2)
∧ from_spheres fl Sp spheres1 grid1 field1 = (Ok u1, grid1).
Proof.
intros H1 H2.
apply from_spheres_Ok_inv in H1
  as (f1 & vx & vy & vz & gx & ys & zs
      & Hf1 & Hx & Hy & Hz & Hgx & Hys & Hzs & -> & ->).
apply from_spheres_Ok_inv in H2
  as (f2 & vx' & vy' & vz' & gx' & ys' & zs'
      & Hf2 & Hx' & Hy' & Hz' & Hgx' & Hys' & Hzs' & -> & ->).
simplify_eq.
rewrite Hgx in Hgx'. rewrite Hys in Hys'. rewrite Hzs in Hzs'.
injection Hgx' as <-. injection Hys' as <-. injection Hzs' as <-.
rewrite !from_spheres_cases, Hf1, Hf2.
rewrite !lookup_insert_ne by done. rewrite Hx, Hy, Hz, Hgx, Hys, Hzs.
by rewrite !insert_insert_eq.
Qed.

(** X14.  In random mode with [ny > 1], limits in order and samples of the
  unit interval, the call returns [nx*ny] points that all lie in the
  region: every x between [x1] and [x2], every y between [y1] and
  [y2]. *)
Theorem from_prisms_random_region prisms x1 x2 y1 y2 nx ny height field g :
is_Some (prism_fields P !! field) →
height_fits height (nx * ny) →
(0 ≤ nx * ny)%Z → (1 < ny)%Z →
(∀ k, 0 ≤ Numpy.samples g k ∧ Numpy.samples g k ≤ 1) →
x1 ≤ x2 → y1 ≤ y2 →
∃ data g' xs ys,
  from_prisms ideal P prisms x1 x2 y1 y2 nx ny height field "random" g
  = (Ok data, g')
  ∧ data !! "x" = Some (VArr xs) ∧ data !! "y" = Some (VArr ys)
  ∧ length xs = Z.to_nat (nx * ny) ∧ length ys = Z.to_nat (nx * ny)
  ∧ Forall (λ x, x1 ≤ x ∧ x ≤ x2) xs
  ∧ Forall (λ y, y1 ≤ y ∧ y ≤ y2) ys.
Proof.
intros Hfield Hfit Hn Hny Hunit Hx Hy.
destruct (from_prisms_random_scatter P prisms x1 x2 y1 y2 nx ny height field g
            Hfield Hfit Hn Hny)
  as (data & xs & ys & Hcall & Hxs & Hys & Hlx & Hly & Hrange).
destruct (Hrange Hunit Hx Hy) as [Hrx Hry].
exists data. eexists. by exists xs, ys.
Qed.


End extras.

(** The samples 1/2, 1/3, ... of the demonstration generator lie in the
    unit interval. *)
Lemma demo_samples_unit (k : nat) :
  0 ≤ Numpy.samples Demo.g k ∧ Numpy.samples Demo.g k ≤ 1.
Proof.
  cbn [Numpy.samples Demo.g].
  set (q := Qc_of_Z (Z.of_nat (k + 2))).
  assert (1 ≤ q) as Hq.
  { unfold q, Qc_of_Z, Qcle. cbn [this Q2Qc]. rewrite !Qred_correct.
    unfold Qle. simpl. lia. }
  assert (0 < q) as Hpos by (eapply Qclt_le_trans; [|exact Hq]; done).
  assert (q ≠ 0) as Hne
    by (intros E; rewrite E in Hpos; by apply Qclt_not_eq in Hpos).
  split.
  - apply (Qcmult_lt_0_le_reg_r _ _ q); [done|].
    replace (1 / q * q) with (1 : Qc) by (by field).
    replace (0 * q) with (0 : Qc) by ring. done.
  - apply (Qcmult_lt_0_le_reg_r _ _ q); [done|].
    replace (1 / q * q) with (1 : Qc) by (by field).
    by replace (1 * q) with q by ring.
Qed.

(** ** The further properties at concrete inputs *)

Lemma from_prisms_invalid_field_witness :
  "random" ∈ ["regular"; "random"]
  ∧ ¬ "gq" ∈ prism_field_names
  ∧ from_prisms binary64 Demo.P [Demo.cube] 0 1 0 1 2 2 (Scalar 0) "gq"
                "random" Demo.g
    = (Raise (AssertionError "Invalid gravity field 'gq'"), Demo.g).
Proof.
  assert ("random" ∈ ["regular"; "random"]) as Hgrid by (by repeat constructor).
  assert ("gq" ∉ prism_field_names) as Hfield
    by (apply (bool_decide_unpack _); vm_compute; exact I).
  split; [exact Hgrid|]. split; [exact Hfield|].
  exact (from_prisms_invalid_field Demo.P binary64 [Demo.cube] 0 1 0 1 2 2
           (Scalar 0) "gq" "random" Demo.g Hgrid Hfield).
Defined.


Lemma from_prisms_returned_keys_witness :
  match (from_prisms ideal Demo.P [Demo.cube] 0 1 0 1 2 2 (Scalar 0) "gz" "random"
                     Demo.g).1
  with
  | Ok data =>
      dom data = data_keys "random"
      ∧ data !! "grid" = Some (VBool false)
      ∧ data !! "nx" = None
  | Raise _ => False
  end.
Proof.
  destruct (from_prisms ideal Demo.P [Demo.cube] 0 1 0 1 2 2 (Scalar 0) "gz" "random"
                        Demo.g)
    as [[data|e] g'] eqn:Hr; [|apply (f_equal fst) in Hr; discriminate Hr].
  destruct (from_prisms_returned_keys Demo.P _ _ _ _ _ _ _ _ _ _ _ _ _ Hr)
    as (Hdom & Hgrid & _ & _ & Habsent).
  split; [exact Hdom|]. split; [exact Hgrid|].
  exact (proj1 (Habsent ltac:(discriminate))).
Defined.

Lemma from_prisms_value_witness :
  match (from_prisms ideal Demo.P [Demo.cube] 0 Demo.ten 0 Demo.ten 2 2 (Scalar 0)
                     "gz" "regular" Demo.g).1
  with
  | Ok data =>
      ∃ value, data !! "value" = Some (VArr value)
               ∧ length value = Z.to_nat (2 * 2)
  | Raise _ => False
  end.
Proof.
  destruct (from_prisms ideal Demo.P [Demo.cube] 0 Demo.ten 0 Demo.ten 2 2 (Scalar 0)
                        "gz" "regular" Demo.g)
    as [[data|e] g'] eqn:Hr; [|apply (f_equal fst) in Hr; discriminate Hr].
  destruct (from_prisms_value Demo.P _ _ _ _ _ _ _ _ _ _ _ _ _ Hr)
    as (function & xs & ys & zs & value & _ & _ & _ & _ & Hv & Hlen & _).
  exists value. split; [exact Hv|exact Hlen].
Defined.



Lemma from_prisms_zero_extent_witness :
  binary64 0 = 0
  ∧ is_Some (prism_fields Demo.P !! "gz")
  ∧ height_broadcasts (Scalar 0) (Z.to_nat (2 * 2))
  ∧ from_prisms binary64 Demo.P [Demo.cube] 0 Demo.ten 1 1 2 2 (Scalar 0) "gz"
                "regular" Demo.g
    = (Raise ZeroDivisionError, Demo.g).
Proof.
  assert (binary64 0 = 0) as H0 by reflexivity.
  assert (is_Some (prism_fields Demo.P !! "gz")) as Hfield
    by (eexists; reflexivity).
  split; [exact H0|]. split; [exact Hfield|]. split; [exact I|].
  apply (from_prisms_zero_extent Demo.P binary64);
    [exact H0|exact Hfield|lia|exact I|].
  right. split; [lia|reflexivity].
Defined.

Lemma from_prisms_shape_error_witness :
  "regular" ∈ ["regular"; "random"]
  ∧ is_Some (prism_fields Demo.P !! "gz")
  ∧ length [1 : Qc; 1; 1] ≠ Z.to_nat (2 * 2)
  ∧ from_prisms binary64 Demo.P [Demo.cube] 0 1 0 1 2 2 (Array [1; 1; 1]) "gz"
                "regular" Demo.g
    = (Raise ValueError, Demo.g).
Proof.
  assert ("regular" ∈ ["regular"; "random"]) as Hgrid by (by repeat constructor).
  assert (is_Some (prism_fields Demo.P !! "gz")) as Hfield
    by (eexists; reflexivity).
  split; [exact Hgrid|]. split; [exact Hfield|]. split; [discriminate|].
  apply (from_prisms_shape_error Demo.P); [exact Hgrid|exact Hfield|].
  right. exists [1; 1; 1]. split; [reflexivity|].
  split; [discriminate|]. split; discriminate.
Defined.

Lemma from_prisms_superposition_witness :
  match (from_prisms ideal Demo.P [Demo.cube] 0 Demo.ten 0 Demo.ten 2 2 (Scalar 0)
                     "gz" "regular" Demo.g).1,
        (from_prisms ideal Demo.P [Demo.cube; Demo.cube] 0 Demo.ten 0 Demo.ten 2 2
                     (Scalar 0) "gz" "regular" Demo.g).1
  with
  | Ok data1, Ok data =>
      ∃ value1, data1 !! "value" = Some (VArr value1)
                ∧ data = <["value" := VArr (add_arrays value1 value1)]> data1
  | _, _ => False
  end.
Proof.
  destruct (from_prisms ideal Demo.P [Demo.cube] 0 Demo.ten 0 Demo.ten 2 2 (Scalar 0)
                        "gz" "regular" Demo.g)
    as [[data1|e] g1] eqn:Hr; [|apply (f_equal fst) in Hr; discriminate Hr].
  destruct (from_prisms_superposition Demo.P _ _ _ _ _ _ _ _ _ _ _ _ _ _ _ _
              Hr Hr)
    as (value1 & value2 & Hv1 & Hv2 & _ & Hcall).
  change ([Demo.cube] ++ [Demo.cube]) with [Demo.cube; Demo.cube] in Hcall.
  rewrite Hcall. exists value1. split; [exact Hv1|].
  rewrite Hv1 in Hv2. by injection Hv2 as ->.
Defined.


Lemma from_spheres_reads_xyz_witness :
  (from_spheres binary64 Demo.Sp [Demo.ball] (<["value" := VInt 7]> Demo.igrid)
                "gz").1
  = (from_spheres binary64 Demo.Sp [Demo.ball] Demo.igrid "gz").1.
Proof.
  apply (from_spheres_reads_xyz Demo.Sp); reflexivity.
Defined.


Lemma from_spheres_overwrites_witness :
  match from_spheres ideal Demo.Sp [Demo.ball] Demo.grid2 "gz" with
  | (Ok u, grid1) =>
      from_spheres ideal Demo.Sp [Demo.ball] grid1 "gz" = (Ok u, grid1)
  | (Raise _, _) => False
  end.
Proof.
  destruct (from_spheres ideal Demo.Sp [Demo.ball] Demo.grid2 "gz")
    as [[u|e] grid1] eqn:Hr; [|apply (f_equal fst) in Hr; discriminate Hr].
  exact (proj2 (from_spheres_overwrites Demo.Sp _ _ _ _ _ _ _ _ _ _ Hr Hr)).
Defined.

Lemma from_prisms_random_region_witness :
  is_Some (prism_fields Demo.P !! "gz")
  ∧ (0 : Qc) ≤ Demo.ten
  ∧ ∃ data g' xs ys,
      from_prisms ideal Demo.P [Demo.cube] 0 Demo.ten 0 Demo.ten 2 2 (Scalar 0) "gz"
                  "random" Demo.g
      = (Ok data, g')
      ∧ data !! "x" = Some (VArr xs) ∧ data !! "y" = Some (VArr ys)
      ∧ Forall (λ x, 0 ≤ x ∧ x ≤ Demo.ten) xs
      ∧ Forall (λ y, 0 ≤ y ∧ y ≤ Demo.ten) ys.
Proof.
  assert (is_Some (prism_fields Demo.P !! "gz")) as Hfield
    by (eexists; reflexivity).
  assert ((0 : Qc) ≤ Demo.ten) as Hle by discriminate.
  split; [exact Hfield|]. split; [exact Hle|].
  destruct (from_prisms_random_region Demo.P [Demo.cube] 0 Demo.ten 0 Demo.ten
              2 2 (Scalar 0) "gz" Demo.g Hfield I ltac:(lia) ltac:(lia)
              demo_samples_unit Hle Hle)
    as (data & g' & xs & ys & Hcall & Hx & Hy & _ & _ & Hxr & Hyr).
  exists data, g', xs, ys.
  split; [exact Hcall|]. split; [exact Hx|]. split; [exact Hy|].
  split; [exact Hxr|exact Hyr].
Defined.

